(** * Voiceflow-Stripe API: the subscription query and webhook handlers

    A shallow embedding of the Express service of [src/unnamed/part_002]:
    the [/api/check-subscription] endpoint, the [/webhook/stripe] endpoint
    and the four event handlers, with the two SDK clients (the payment
    provider and the subscription store) as explicit collaborators. *)

From stdpp Require Import gmap strings list fin_maps.
From Stdlib Require Import ZArith Lia.

Open Scope string_scope.
Open Scope Z_scope.

(** ** JavaScript values *)

Module Js.

(** A thrown or reported error object: its class name and [message]. *)
Record Error := mkError { name : string; message : string }.

(** The values the handlers put into a JSON body.  A timestamp column
    travels as an ISO-8601 string; [VTimestamp ms] stands for the string
    that denotes the instant [ms] (milliseconds since the epoch). *)
Inductive Val :=
| VNull
| VBool (b : bool)
| VStr (s : string)
| VTimestamp (ms : Z).

(** A value read from a parsed JSON body.  A number is given by the text
    [String(n)] makes of it (both zeros print as ["0"]; JSON has no NaN),
    an object or array by the text [String(o)] makes of it;
    [JUndefined] is the value of a key the body does not have. *)
Inductive Value :=
| JUndefined
| JNull
| JBool (b : bool)
| JNumber (text : string)
| JString (s : string)
| JObject (text : string).

(** The test [if (x)], and [!x] as its negation: undefined, null, false,
    zero and the empty string are falsy, everything else is truthy. *)
Definition truthy (x : Value) : bool :=
  match x with
  | JUndefined | JNull => false
  | JBool b => b
  | JNumber text => negb (String.eqb text "0")
  | JString s => negb (String.eqb s "")
  | JObject _ => true
  end.

(** [`${x}`] on a value: the text a template literal makes of it. *)
Definition to_string (x : Value) : string :=
  match x with
  | JUndefined => "undefined"
  | JNull => "null"
  | JBool true => "true"
  | JBool false => "false"
  | JNumber text => text
  | JString s => s
  | JObject text => text
  end.

(** [`${x}`] on an environment variable, which is a string or undefined;
    a computed key [[x]] is made the same way. *)
Definition template (x : option string) : string := default "undefined" x.

(** The properties every object literal inherits from [Object.prototype]. *)
Definition object_prototype_keys : list string :=
  [ "constructor"; "__defineGetter__"; "__defineSetter__"; "hasOwnProperty";
    "__lookupGetter__"; "__lookupSetter__"; "isPrototypeOf";
    "propertyIsEnumerable"; "toString"; "valueOf"; "__proto__";
    "toLocaleString" ].

(** What [obj[key]] evaluates to on an object literal whose own
    properties are the string-valued map [obj]. *)
Inductive Property :=
| Own (v : string)
| Inherited (key : string)
| Undefined.

Definition get (obj : gmap string string) (key : string) : Property :=
  match obj !! key with
  | Some v => Own v
  | None =>
      if bool_decide (key ∈ object_prototype_keys) then Inherited key
      else Undefined
  end.

(** [Date.prototype.toISOString] on the time value [ms]: a RangeError
    outside the representable range of 8.64e15 ms around the epoch. *)
Definition max_time : Z := 8640000000000000.

Definition toISOString (ms : Z) : Error + Z :=
  if (Z.abs ms <=? max_time) then inr ms
  else inl (mkError "RangeError" "Invalid time value").

End Js.

(** ** Configuration: [process.env] *)

Record Config := {
  STRIPE_WEBHOOK_SECRET : option string;
  PRICE_ID_BASIC : option string;
  PRICE_ID_PRO : option string;
  PRICE_ID_PREMIUM : option string
}.

(** ** Price ID mapping to subscription tiers *)

(** A computed key [[process.env.X]]: an unset variable gives the key
    ["undefined"].  Later entries of the literal overwrite earlier ones. *)
Definition TIER_MAPPING (cfg : Config) : gmap string string :=
  <[ Js.template (PRICE_ID_PREMIUM cfg) := "premium" ]>
  (<[ Js.template (PRICE_ID_PRO cfg) := "pro" ]>
  (<[ Js.template (PRICE_ID_BASIC cfg) := "basic" ]> ∅)).

(** The value of [TIER_MAPPING[priceId] || 'unknown']: a tier name, or an
    object inherited from [Object.prototype] (a function, or the prototype
    itself for ["__proto__"]), which is truthy as well. *)
Inductive TierValue :=
| TierName (s : string)
| TierInherited (key : string).

Definition resolve_tier (cfg : Config) (priceId : string) : TierValue :=
  match Js.get (TIER_MAPPING cfg) priceId with
  | Js.Own v => if String.eqb v "" then TierName "unknown" else TierName v
  | Js.Inherited k => TierInherited k
  | Js.Undefined => TierName "unknown"
  end.

(** [JSON.stringify] of the payload: a string stays, a function-valued
    property is left out, and [Object.prototype] has no enumerable
    property of its own, so it is written as the empty object. *)
Definition tier_json (t : TierValue) : option string :=
  match t with
  | TierName s => Some s
  | TierInherited k => if String.eqb k "__proto__" then Some "{}" else None
  end.

(** ** The payment provider's objects, as far as the handlers read them *)

Module Stripe.

(** [items.data[i]]: only [price.id] is read. *)
Record LineItem := { price_id : string }.

(** [event.data.object]: a subscription or an invoice.  The handlers
    read the fields by name, so one record carries all of them;
    [current_period_end] is in seconds since the epoch. *)
Record Object := {
  id : string;
  customer : string;
  status : string;
  items : list LineItem;
  current_period_end : Z
}.

Record Event := { type : string; data_object : Object }.

(** What [stripe.customers.retrieve] resolves to. *)
Record Customer := { email : string }.

End Stripe.

(** ** Data model: one row of the [subscriptions] table *)

(** The two timestamp columns hold instants, in milliseconds since the
    epoch (the client hands them over as ISO-8601 strings, which
    [toISOString] writes and [new Date] reads back).  [subscription_tier]
    is null when a row was inserted without that column. *)
Record Row := {
  user_id : string;
  email : string;
  stripe_customer_id : string;
  subscription_tier : option string;
  status : string;
  stripe_subscription_id : string;
  current_period_end : Z;
  updated_at : Z
}.

(** The object literal [subscriptionData] of [handleSubscriptionUpdate]. *)
Record SubscriptionData := {
  sd_user_id : string;
  sd_email : string;
  sd_stripe_customer_id : string;
  sd_subscription_tier : TierValue;
  sd_status : string;
  sd_stripe_subscription_id : string;
  sd_current_period_end : Z;
  sd_updated_at : Z
}.

(** The object literal handed to [update]: the columns it names. *)
Record Patch := {
  p_status : option string;
  p_subscription_tier : option string;
  p_updated_at : option Z
}.

Inductive Column := Col_user_id | Col_email | Col_stripe_customer_id.

Definition column (c : Column) (r : Row) : string :=
  match c with
  | Col_user_id => user_id r
  | Col_email => email r
  | Col_stripe_customer_id => stripe_customer_id r
  end.

(** ** The store: what a healthy [subscriptions] table does *)

Module Store.

(** The filter [.eq(column, value)]. *)
Definition eq (c : Column) (v : string) (r : Row) : bool :=
  String.eqb (column c r) v.

Definition select_eq (c : Column) (v : string) (db : list Row) : list Row :=
  List.filter (eq c v) db.

Definition apply_patch (p : Patch) (r : Row) : Row :=
  {| user_id := user_id r;
     email := email r;
     stripe_customer_id := stripe_customer_id r;
     subscription_tier :=
       match p_subscription_tier p with
       | Some t => Some t
       | None => subscription_tier r
       end;
     status := default (status r) (p_status p);
     stripe_subscription_id := stripe_subscription_id r;
     current_period_end := current_period_end r;
     updated_at := default (updated_at r) (p_updated_at p) |}.

(** [update(patch).eq(column, value)]: every matching row is patched,
    no row is added or removed. *)
Definition update_eq (p : Patch) (c : Column) (v : string)
    (db : list Row) : list Row :=
  List.map (fun r => if eq c v r then apply_patch p r else r) db.

(** The row an upsert writes: every column of the payload, and for a
    column the payload leaves out the old value (null on insert). *)
Definition upsert_row (d : SubscriptionData) (old : option Row) : Row :=
  {| user_id := sd_user_id d;
     email := sd_email d;
     stripe_customer_id := sd_stripe_customer_id d;
     subscription_tier :=
       match tier_json (sd_subscription_tier d) with
       | Some t => Some t
       | None => old ≫= subscription_tier
       end;
     status := sd_status d;
     stripe_subscription_id := sd_stripe_subscription_id d;
     current_period_end := sd_current_period_end d;
     updated_at := sd_updated_at d |}.

(** [upsert(data, { onConflict: 'user_id' })]: the row with the same
    [user_id] is overwritten, otherwise a row is added. *)
Fixpoint upsert (d : SubscriptionData) (db : list Row) : list Row :=
  match db with
  | [] => [upsert_row d None]
  | r :: rest =>
      if String.eqb (user_id r) (sd_user_id d)
      then upsert_row d (Some r) :: rest
      else r :: upsert d rest
  end.

(** How the store answers a call: it executes it, it reports a fault in
    the [error] field of the result, or the call itself throws. *)
Inductive Mode :=
| Healthy
| Rejects (e : Js.Error)
| Throws (e : Js.Error).

(** The [{ data, error }] object a call resolves to. *)
Record Result := { data : option Row; error : option Js.Error }.

(** The error [.single()] reports unless exactly one row matches. *)
Definition not_single : Js.Error :=
  Js.mkError "PGRST116" "JSON object requested, multiple (or no) rows returned".

Definition single (rows : list Row) : Result :=
  match rows with
  | [r] => {| data := Some r; error := None |}
  | _ => {| data := None; error := Some not_single |}
  end.

End Store.

(** ** The collaborators and the world a request runs in *)

(** The outside of one request: the configuration, the clock (the time
    value of [new Date()], always a valid date), the provider's signature
    check and customer lookup, and the way the store answers. *)
Record Env := {
  cfg : Config;
  clock : Z;
  constructEvent :
    string -> option string -> option string -> Js.Error + Stripe.Event;
  customers_retrieve : string -> Js.Error + Stripe.Customer;
  store_mode : Store.Mode
}.

(** Every call to a collaborator and every console line, in order.  A
    console line is recorded by its fixed first argument. *)
Inductive Effect :=
| CustomersRetrieve (customer : string)
| SelectSingle (c : Column) (v : string)
| Upsert (d : SubscriptionData)
| Update (p : Patch) (c : Column) (v : string)
| ConsoleLog (label : string)
| ConsoleError (label : string).

Record World := { db : list Row; trace : list Effect }.

Definition emit (e : Effect) (w : World) : World :=
  {| db := db w; trace := trace w ++ [e] |}.

(** ** Computations that may throw *)

Inductive Outcome (A : Type) :=
| Returned (a : A)
| Threw (e : Js.Error).
Arguments Returned {A} a.
Arguments Threw {A} e.

Definition M (A : Type) : Type := World -> Outcome A * World.

#[global] Instance M_ret : MRet M := fun A a w => (Returned a, w).

#[global] Instance M_bind : MBind M := fun A B f m w =>
  match m w with
  | (Returned a, w') => f a w'
  | (Threw e, w') => (Threw e, w')
  end.

Definition throw {A} (e : Js.Error) : M A := fun w => (Threw e, w).

(** [try { body } catch (error) { handler }] *)
Definition try_catch {A} (body : M A) (handler : Js.Error -> M A) : M A :=
  fun w =>
    match body w with
    | (Returned a, w') => (Returned a, w')
    | (Threw e, w') => handler e w'
    end.

Definition effect (e : Effect) : M unit := fun w => (Returned tt, emit e w).

Definition console_log (label : string) : M unit := effect (ConsoleLog label).
Definition console_error (label : string) : M unit := effect (ConsoleError label).

Definition lift {A} (r : Js.Error + A) : M A :=
  match r with
  | inl e => throw e
  | inr a => mret a
  end.

(** [await stripe.customers.retrieve(id)] *)
Definition stripe_customers_retrieve (env : Env) (customer : string)
    : M Stripe.Customer :=
  effect (CustomersRetrieve customer) ;; lift (customers_retrieve env customer).

(** One awaited store call: it is recorded, then answered as the store's
    mode says; only a healthy store reads or changes the table. *)
Definition store_call (env : Env) (e : Effect)
    (run : list Row -> Store.Result * list Row) : M Store.Result :=
  fun w =>
    match store_mode env with
    | Store.Healthy =>
        let '(res, db') := run (db w) in
        (Returned res, {| db := db'; trace := trace w ++ [e] |})
    | Store.Rejects err =>
        (Returned {| Store.data := None; Store.error := Some err |}, emit e w)
    | Store.Throws err => (Threw err, emit e w)
    end.

Definition no_data : Store.Result := {| Store.data := None; Store.error := None |}.

(** [await supabase.from('subscriptions').select('*').eq(c, v).single()] *)
Definition store_select_single (env : Env) (c : Column) (v : string)
    : M Store.Result :=
  store_call env (SelectSingle c v)
    (fun db => (Store.single (Store.select_eq c v db), db)).

(** [await supabase.from('subscriptions').upsert(d, { onConflict: 'user_id' })] *)
Definition store_upsert (env : Env) (d : SubscriptionData) : M Store.Result :=
  store_call env (Upsert d) (fun db => (no_data, Store.upsert d db)).

(** [await supabase.from('subscriptions').update(p).eq(c, v)] *)
Definition store_update (env : Env) (p : Patch) (c : Column) (v : string)
    : M Store.Result :=
  store_call env (Update p c v) (fun db => (no_data, Store.update_eq p c v db)).

(** ** HTTP responses *)

Inductive Body :=
| Json (fields : list (string * Js.Val))
| Text (s : string).

(** [res.status(code)] and then [json] or [send]; the code is 200 when
    [status] is not called. *)
Record Response := { code : Z; body : Body }.

Definition res_json (fields : list (string * Js.Val)) : Response :=
  {| code := 200; body := Json fields |}.

Definition res_status_json (c : Z) (fields : list (string * Js.Val)) : Response :=
  {| code := c; body := Json fields |}.

Definition res_status_send (c : Z) (s : string) : Response :=
  {| code := c; body := Text s |}.

(** The value of a key of a JSON body, if the body has it. *)
Fixpoint assoc (k : string) (fields : list (string * Js.Val)) : option Js.Val :=
  match fields with
  | [] => None
  | (k', v) :: rest => if String.eqb k' k then Some v else assoc k rest
  end.

Definition field (k : string) (r : Response) : option Js.Val :=
  match body r with
  | Json fields => assoc k fields
  | Text _ => None
  end.

Definition nullable (x : option string) : Js.Val :=
  match x with
  | Some s => Js.VStr s
  | None => Js.VNull
  end.

(** ** ENDPOINT 1: Check Subscription *)

(** The object [req.body] the JSON parser made, read at the two keys the
    handler destructures.  (A body that is a JSON array has neither key.) *)
Record CheckRequest := { userId : Js.Value; req_email : Js.Value }.

(** What [const { userId, email } = req.body] throws when the parser has
    left [req.body] undefined. *)
Definition destructure_error : Js.Error :=
  Js.mkError "TypeError"
    "Cannot destructure property 'userId' of 'req.body' as it is undefined.".

Definition missing_parameter : Response :=
  res_status_json 400
    [ ("error", Js.VStr "Missing parameter");
      ("message", Js.VStr "Please provide either userId or email") ].

Definition no_subscription : Response :=
  res_json
    [ ("hasSubscription", Js.VBool false);
      ("subscriptionTier", Js.VStr "free");
      ("status", Js.VStr "inactive");
      ("message", Js.VStr "No active subscription found") ].

Definition internal_server_error (error : Js.Error) : Response :=
  res_status_json 500
    [ ("error", Js.VStr "Internal server error");
      ("message", Js.VStr (Js.message error)) ].

(** The body built from the row the store returned. *)
Definition subscription_response (env : Env) (data : Row) : Response :=
  let isActive := String.eqb (status data) "active" in
  let currentPeriodEnd := current_period_end data in
  let isExpired := currentPeriodEnd <? clock env in
  res_json
    [ ("hasSubscription", Js.VBool (isActive && negb isExpired));
      ("subscriptionTier",
        if isActive && negb isExpired then nullable (subscription_tier data)
        else Js.VStr "free");
      ("status", Js.VStr (status data));
      ("userId", Js.VStr (user_id data));
      ("email", Js.VStr (email data));
      ("currentPeriodEnd", Js.VTimestamp (current_period_end data));
      ("stripeCustomerId", Js.VStr (stripe_customer_id data)) ].

(** The [query] the handler builds: the filter column and its value,
    which the client writes into the request as [`eq.${value}`]. *)
Definition query (req : CheckRequest) : Column * string :=
  if Js.truthy (userId req)
  then (Col_user_id, Js.to_string (userId req))
  else (Col_email, Js.to_string (req_email req)).

(** The handler on [req.body]: [None] when the parser left it undefined
    (a request without a JSON body, where the parser does not default it
    to an empty object). *)
Definition check_subscription (env : Env) (body : option CheckRequest)
    : M Response :=
  try_catch
    (req ← match body with
           | Some req => mret req
           | None => throw destructure_error
           end;
     if negb (Js.truthy (userId req)) && negb (Js.truthy (req_email req))
     then mret missing_parameter
     else
       res ← store_select_single env (query req).1 (query req).2;
       match Store.error res, Store.data res with
       | None, Some data => mret (subscription_response env data)
       | _, _ => mret no_subscription
       end)
    (fun error =>
       console_error "Error checking subscription:" ;;
       mret (internal_server_error error)).

(** ** HELPER FUNCTIONS *)

Definition type_error (what : string) : Js.Error :=
  Js.mkError "TypeError"
    ("Cannot read properties of undefined (reading '" +:+ what +:+ "')").

Definition handleSubscriptionUpdate (env : Env) (subscription : Stripe.Object)
    : M unit :=
  try_catch
    (customer ← stripe_customers_retrieve env (Stripe.customer subscription);
     item ← match Stripe.items subscription with
            | [] => throw (type_error "price")
            | item :: _ => mret item
            end;
     let priceId := Stripe.price_id item in
     let tier := resolve_tier (cfg env) priceId in
     period_end ← lift (Js.toISOString (Stripe.current_period_end subscription * 1000));
     let now := clock env in
     let subscriptionData :=
       {| sd_user_id := Stripe.email customer;
          sd_email := Stripe.email customer;
          sd_stripe_customer_id := Stripe.customer subscription;
          sd_subscription_tier := tier;
          sd_status := Stripe.status subscription;
          sd_stripe_subscription_id := Stripe.id subscription;
          sd_current_period_end := period_end;
          sd_updated_at := now |} in
     res ← store_upsert env subscriptionData;
     match Store.error res with
     | Some _ => console_error "Supabase error:"
     | None => console_log "Subscription updated in database:"
     end)
    (fun error => console_error "Error handling subscription update:").

Definition handleSubscriptionDeleted (env : Env) (subscription : Stripe.Object)
    : M unit :=
  try_catch
    (customer ← stripe_customers_retrieve env (Stripe.customer subscription);
     let now := clock env in
     res ← store_update env
             {| p_status := Some "canceled";
                p_subscription_tier := Some "free";
                p_updated_at := Some now |}
             Col_stripe_customer_id (Stripe.customer subscription);
     match Store.error res with
     | Some _ => console_error "Supabase error:"
     | None => console_log "Subscription canceled in database:"
     end)
    (fun error => console_error "Error handling subscription deletion:").

Definition handlePaymentSucceeded (env : Env) (invoice : Stripe.Object)
    : M unit :=
  console_log "Payment succeeded for customer:".

Definition handlePaymentFailed (env : Env) (invoice : Stripe.Object)
    : M unit :=
  try_catch
    (let now := clock env in
     res ← store_update env
             {| p_status := Some "past_due";
                p_subscription_tier := None;
                p_updated_at := Some now |}
             Col_stripe_customer_id (Stripe.customer invoice);
     match Store.error res with
     | Some _ => mret tt
     | None => console_log "Payment failed, subscription marked as past_due"
     end)
    (fun error => console_error "Error handling payment failure:").

(** ** ENDPOINT 2: Stripe Webhook Handler *)

(** The raw body and the [stripe-signature] header. *)
Record WebhookRequest := { raw_body : string; stripe_signature : option string }.

Definition received : Response := res_json [ ("received", Js.VBool true) ].

Definition webhook_processing_failed : Response :=
  res_status_json 500 [ ("error", Js.VStr "Webhook processing failed") ].

Definition webhook_error (err : Js.Error) : Response :=
  res_status_send 400 ("Webhook Error: " +:+ Js.message err).

(** The [switch (event.type)]. *)
Definition dispatch (env : Env) (event : Stripe.Event) : M unit :=
  let t := Stripe.type event in
  if String.eqb t "customer.subscription.created"
     || String.eqb t "customer.subscription.updated"
  then handleSubscriptionUpdate env (Stripe.data_object event)
  else if String.eqb t "customer.subscription.deleted"
  then handleSubscriptionDeleted env (Stripe.data_object event)
  else if String.eqb t "invoice.payment_succeeded"
  then handlePaymentSucceeded env (Stripe.data_object event)
  else if String.eqb t "invoice.payment_failed"
  then handlePaymentFailed env (Stripe.data_object event)
  else console_log "Unhandled event type:".

Definition webhook_stripe (env : Env) (req : WebhookRequest) : M Response :=
  match constructEvent env (raw_body req) (stripe_signature req)
          (STRIPE_WEBHOOK_SECRET (cfg env)) with
  | inl err =>
      console_error "Webhook signature verification failed:" ;;
      mret (webhook_error err)
  | inr event =>
      console_log "Webhook received:" ;;
      try_catch
        (dispatch env event ;; mret received)
        (fun error =>
           console_error "Error processing webhook:" ;;
           mret webhook_processing_failed)
  end.

(** ** Running a request *)

(** A request starts on the table [db0] with an empty trace. *)
Definition start (db0 : list Row) : World := {| db := db0; trace := [] |}.

Definition run {A} (m : M A) (db0 : list Row) : Outcome A * World := m (start db0).

(** The store calls and the provider calls among the effects. *)
Definition is_store_call (e : Effect) : bool :=
  match e with
  | SelectSingle _ _ | Upsert _ | Update _ _ _ => true
  | _ => false
  end.

Definition is_store_write (e : Effect) : bool :=
  match e with
  | Upsert _ | Update _ _ _ => true
  | _ => false
  end.

Definition is_customer_lookup (e : Effect) : bool :=
  match e with
  | CustomersRetrieve _ => true
  | _ => false
  end.

Definition store_calls (w : World) : list Effect := List.filter is_store_call (trace w).
Definition customer_lookups (w : World) : list Effect :=
  List.filter is_customer_lookup (trace w).

(** The same environment with another store behaviour, or another answer
    of the provider's customer lookup. *)
Definition with_store_mode (m : Store.Mode) (env : Env) : Env :=
  {| cfg := cfg env;
     clock := clock env;
     constructEvent := constructEvent env;
     customers_retrieve := customers_retrieve env;
     store_mode := m |}.

Definition with_customers_retrieve
    (f : string -> Js.Error + Stripe.Customer) (env : Env) : Env :=
  {| cfg := cfg env;
     clock := clock env;
     constructEvent := constructEvent env;
     customers_retrieve := f;
     store_mode := store_mode env |}.

(** The request carries an identifier the handler accepts. *)
Definition identified (req : CheckRequest) : bool :=
  Js.truthy (userId req) || Js.truthy (req_email req).

(** The event the provider's library makes of a request, when it accepts
    the signature. *)
Definition verified (env : Env) (req : WebhookRequest) (event : Stripe.Event) : Prop :=
  constructEvent env (raw_body req) (stripe_signature req)
    (STRIPE_WEBHOOK_SECRET (cfg env)) = inr event.

Definition rejected (env : Env) (req : WebhookRequest) (err : Js.Error) : Prop :=
  constructEvent env (raw_body req) (stripe_signature req)
    (STRIPE_WEBHOOK_SECRET (cfg env)) = inl err.

(** ** The writes of the event handlers, named for the statements below *)

(** The patches of [handleSubscriptionDeleted] and [handlePaymentFailed]. *)
Definition cancel_patch (now : Z) : Patch :=
  {| p_status := Some "canceled";
     p_subscription_tier := Some "free";
     p_updated_at := Some now |}.

Definition past_due_patch (now : Z) : Patch :=
  {| p_status := Some "past_due";
     p_subscription_tier := None;
     p_updated_at := Some now |}.

Definition is_subscription_update (t : string) : bool :=
  String.eqb t "customer.subscription.created"
  || String.eqb t "customer.subscription.updated".

(** The record [handleSubscriptionUpdate] builds from a subscription
    whose period end is a valid date. *)
Definition subscriptionData (env : Env) (subscription : Stripe.Object)
    (cust : Stripe.Customer) (item : Stripe.LineItem) : SubscriptionData :=
  {| sd_user_id := Stripe.email cust;
     sd_email := Stripe.email cust;
     sd_stripe_customer_id := Stripe.customer subscription;
     sd_subscription_tier := resolve_tier (cfg env) (Stripe.price_id item);
     sd_status := Stripe.status subscription;
     sd_stripe_subscription_id := Stripe.id subscription;
     sd_current_period_end := Stripe.current_period_end subscription * 1000;
     sd_updated_at := clock env |}.

(** What a cancellation makes of a row, and what a failed payment does. *)
Definition canceled_of (r r' : Row) : Prop :=
  status r' = "canceled" /\
  subscription_tier r' = Some "free" /\
  user_id r' = user_id r /\
  email r' = email r /\
  stripe_customer_id r' = stripe_customer_id r /\
  stripe_subscription_id r' = stripe_subscription_id r /\
  current_period_end r' = current_period_end r.

Definition past_due_of (r r' : Row) : Prop :=
  status r' = "past_due" /\
  subscription_tier r' = subscription_tier r /\
  user_id r' = user_id r /\
  email r' = email r /\
  stripe_customer_id r' = stripe_customer_id r /\
  stripe_subscription_id r' = stripe_subscription_id r /\
  current_period_end r' = current_period_end r.

(** ** The table a request leaves, and the invariants of the table *)

(** The table after a request that started on [db0]. *)
Definition table_after {A} (m : M A) (db0 : list Row) : list Row :=
  db (run m db0).2.

Definition response_of {A} (m : M A) (db0 : list Row) : Outcome A :=
  (run m db0).1.

(** One row per identity key, and the key is the email
    ([user_id: customer.email], "Using email as user_id"). *)
Definition unique_user_id (table : list Row) : Prop :=
  NoDup (List.map user_id table).

Definition email_is_user_id (table : list Row) : Prop :=
  Forall (fun r => user_id r = email r) table.

(** ** The probe script of [src/unnamed/part_001] *)

Module TestApi.

(** The body the script posts. *)
Definition request : CheckRequest :=
  {| userId := Js.JUndefined; req_email := Js.JString "becreativekashif@gmail.com" |}.

(** [if (data.k)] on a key of the parsed body; a missing key is
    undefined. *)
Definition truthy (v : option Js.Val) : bool :=
  match v with
  | Some (Js.VBool b) => b
  | Some (Js.VStr s) => negb (String.eqb s "")
  | Some (Js.VTimestamp _) => true
  | Some Js.VNull | None => false
  end.

(** [data.k === s] for a string literal [s]. *)
Definition strict_eq (v : option Js.Val) (s : string) : bool :=
  match v with
  | Some (Js.VStr t) => String.eqb t s
  | _ => false
  end.

(** The condition under the comment [// Validation]. *)
Definition validation (data : Response) : bool :=
  truthy (field "hasSubscription" data)
  && strict_eq (field "subscriptionTier" data) "premium".

(** The line the script prints after the body, for the response the
    endpoint gave. *)
Definition verdict (data : Response) : string :=
  if validation data
  then "PASS: API returns correct subscription data"
  else "FAIL: Unexpected response".

(** The script against a server in environment [env] on table [db0]. *)
Definition testAPI (env : Env) (db0 : list Row) : option string :=
  match response_of (check_subscription env (Some request)) db0 with
  | Returned data => Some (verdict data)
  | Threw _ => None
  end.

End TestApi.

(** ** Further sample events *)

Module Scenario.

Definition premium_item : Stripe.LineItem := {| Stripe.price_id := "price_premium" |}.

Definition carol : Stripe.Customer := {| Stripe.email := "carol@example.com" |}.

Definition lookup_carol (customer : string) : Js.Error + Stripe.Customer :=
  inr carol.

Definition subscription : Stripe.Object :=
  {| Stripe.id := "sub_9";
     Stripe.customer := "cus_carol";
     Stripe.status := "active";
     Stripe.items := [premium_item];
     Stripe.current_period_end := 1800000000 |}.

Definition event (t : string) : Stripe.Event :=
  {| Stripe.type := t; Stripe.data_object := subscription |}.

Definition accept (ev : Stripe.Event) (raw : string) (sig secret : option string)
    : Js.Error + Stripe.Event := inr ev.

Definition config : Config :=
  {| STRIPE_WEBHOOK_SECRET := Some "whsec_test";
     PRICE_ID_BASIC := Some "price_basic";
     PRICE_ID_PRO := Some "price_pro";
     PRICE_ID_PREMIUM := Some "price_premium" |}.

Definition env (now : Z) (t : string) (m : Store.Mode) : Env :=
  {| cfg := config;
     clock := now;
     constructEvent := accept (event t);
     customers_retrieve := lookup_carol;
     store_mode := m |}.

Definition request : WebhookRequest :=
  {| raw_body := "{}"; stripe_signature := Some "t=1,v1=abc" |}.

Definition by_userId (u : string) : CheckRequest :=
  {| userId := Js.JString u; req_email := Js.JUndefined |}.

Definition by_email (e : string) : CheckRequest :=
  {| userId := Js.JUndefined; req_email := Js.JString e |}.

Definition row (u customer : string) (tier st : string) (period_end : Z) : Row :=
  {| user_id := u;
     email := u;
     stripe_customer_id := customer;
     subscription_tier := Some tier;
     status := st;
     stripe_subscription_id := "sub_0";
     current_period_end := period_end;
     updated_at := 0 |}.

Definition table : list Row :=
  [ row "dave@example.com" "cus_dave" "pro" "active" 1800000000000;
    row "erin@example.com" "cus_carol" "premium" "active" 1800000000000 ].

End Scenario.

(** ** Sample configuration, rows and events *)

Module Sample.

Definition config : Config :=
  {| STRIPE_WEBHOOK_SECRET := Some "whsec_test";
     PRICE_ID_BASIC := Some "price_basic";
     PRICE_ID_PRO := Some "price_pro";
     PRICE_ID_PREMIUM := Some "price_premium" |}.

Definition alice : Row :=
  {| user_id := "alice@example.com";
     email := "alice@example.com";
     stripe_customer_id := "cus_alice";
     subscription_tier := Some "premium";
     status := "active";
     stripe_subscription_id := "sub_1";
     current_period_end := 1800000000000;
     updated_at := 1700000000000 |}.

Definition bob : Row :=
  {| user_id := "bob@example.com";
     email := "bob@example.com";
     stripe_customer_id := "cus_bob";
     subscription_tier := Some "basic";
     status := "active";
     stripe_subscription_id := "sub_2";
     current_period_end := 1750000000000;
     updated_at := 1700000000001 |}.

Definition table : list Row := [alice; bob].

Definition subscription (price : list Stripe.LineItem) : Stripe.Object :=
  {| Stripe.id := "sub_1";
     Stripe.customer := "cus_alice";
     Stripe.status := "active";
     Stripe.items := price;
     Stripe.current_period_end := 1800000000 |}.

Definition event (t : string) (price : list Stripe.LineItem) : Stripe.Event :=
  {| Stripe.type := t; Stripe.data_object := subscription price |}.

Definition outage : Js.Error := Js.mkError "Error" "connection refused".

Definition bad_signature : Js.Error :=
  Js.mkError "StripeSignatureVerificationError"
    "No signatures found matching the expected signature for payload.".

(** The library accepts the signature ["good"] and delivers [ev]. *)
Definition verify (ev : Stripe.Event) (raw : string) (sig secret : option string)
    : Js.Error + Stripe.Event :=
  match sig with
  | Some "good" => inr ev
  | _ => inl bad_signature
  end.

Definition lookup_ok (customer : string) : Js.Error + Stripe.Customer :=
  inr {| Stripe.email := "alice@example.com" |}.

Definition lookup_down (customer : string) : Js.Error + Stripe.Customer :=
  inl outage.

Definition env (now : Z) (ev : Stripe.Event) (m : Store.Mode) : Env :=
  {| cfg := config;
     clock := now;
     constructEvent := verify ev;
     customers_retrieve := lookup_ok;
     store_mode := m |}.

Definition signed : WebhookRequest :=
  {| raw_body := "{}"; stripe_signature := Some "good" |}.

Definition forged : WebhookRequest :=
  {| raw_body := "{}"; stripe_signature := Some "bad" |}.

Definition by_email (e : string) : CheckRequest :=
  {| userId := Js.JUndefined; req_email := Js.JString e |}.

Definition empty_request : CheckRequest :=
  {| userId := Js.JUndefined; req_email := Js.JUndefined |}.

End Sample.

(** * Properties *)

(** Unfolding the sequencing of a handler down to the world it returns. *)
Ltac step_m :=
  unfold run, start, try_catch, store_select_single, store_upsert,
    store_update, store_call, stripe_customers_retrieve, console_log,
    console_error, effect, lift, throw, emit, mbind, M_bind, mret, M_ret;
  simpl.

(** ** The query endpoint *)

Section CheckSubscription.

Variable env : Env.
Variable req : CheckRequest.
Variable db0 : list Row.

Lemma identified_guard :
  identified req = true ->
  negb (Js.truthy (userId req)) && negb (Js.truthy (req_email req)) = false.
Proof.
  unfold identified.
  destruct (Js.truthy (userId req)), (Js.truthy (req_email req)); simpl; congruence.
Qed.

(** A request without a usable identifier is answered before the query
    is built. *)
Lemma check_subscription_unidentified :
  identified req = false ->
  run (check_subscription env (Some req)) db0 = (Returned missing_parameter, start db0).
Proof.
  unfold identified, check_subscription. intros H. step_m.
  apply orb_false_iff in H as [-> ->]. reflexivity.
Qed.

(** With an identifier and a healthy store, the answer is decided by the
    rows the filter selects. *)
Lemma check_subscription_healthy :
  identified req = true ->
  store_mode env = Store.Healthy ->
  run (check_subscription env (Some req)) db0 =
    (Returned
       match Store.select_eq (query req).1 (query req).2 db0 with
       | [data] => subscription_response env data
       | _ => no_subscription
       end,
     {| db := db0; trace := [SelectSingle (query req).1 (query req).2] |}).
Proof.
  intros Hid Hm. unfold check_subscription. step_m.
  rewrite (identified_guard Hid). step_m. rewrite Hm. simpl.
  destruct (Store.select_eq _ _ db0) as [|data [|]]; reflexivity.
Qed.

Lemma check_subscription_rejects e :
  identified req = true ->
  store_mode env = Store.Rejects e ->
  run (check_subscription env (Some req)) db0 =
    (Returned no_subscription,
     {| db := db0; trace := [SelectSingle (query req).1 (query req).2] |}).
Proof.
  intros Hid Hm. unfold check_subscription. step_m.
  rewrite (identified_guard Hid). step_m. rewrite Hm. reflexivity.
Qed.

Lemma check_subscription_throws e :
  identified req = true ->
  store_mode env = Store.Throws e ->
  run (check_subscription env (Some req)) db0 =
    (Returned (internal_server_error e),
     {| db := db0;
        trace := [SelectSingle (query req).1 (query req).2;
                  ConsoleError "Error checking subscription:"] |}).
Proof.
  intros Hid Hm. unfold check_subscription. step_m.
  rewrite (identified_guard Hid). step_m. rewrite Hm. reflexivity.
Qed.

End CheckSubscription.

(** Without a parsed body the destructuring throws, inside the [try]:
    the handler's own [catch] answers, before any call. *)
Lemma check_subscription_no_body env db0 :
  run (check_subscription env None) db0 =
    (Returned (internal_server_error destructure_error),
     {| db := db0; trace := [ConsoleError "Error checking subscription:"] |}).
Proof. reflexivity. Qed.

(** A parsed body that has neither [userId] nor [email] is answered 400
    with the missing-parameter error, and no store call is made. *)
Theorem check_subscription_missing_parameter env req db0 :
  userId req = Js.JUndefined ->
  req_email req = Js.JUndefined ->
  exists w,
    run (check_subscription env (Some req)) db0 = (Returned missing_parameter, w) /\
    code missing_parameter = 400 /\
    field "error" missing_parameter = Some (Js.VStr "Missing parameter") /\
    store_calls w = [] /\
    db w = db0.
Proof.
  intros Hu He. exists (start db0).
  rewrite check_subscription_unidentified.
  - repeat split; reflexivity.
  - unfold identified. rewrite Hu, He. reflexivity.
Qed.

Lemma check_subscription_missing_parameter_witness :
  userId Sample.empty_request = Js.JUndefined /\
  req_email Sample.empty_request = Js.JUndefined /\
  exists w,
    run (check_subscription
           (Sample.env 0 (Sample.event "" []) Store.Healthy)
           (Some Sample.empty_request)) Sample.table
      = (Returned missing_parameter, w) /\
    code missing_parameter = 400 /\
    field "error" missing_parameter = Some (Js.VStr "Missing parameter") /\
    store_calls w = [] /\
    db w = Sample.table.
Proof.
  split; [reflexivity | split; [reflexivity |]].
  apply (check_subscription_missing_parameter
           (Sample.env 0 (Sample.event "" []) Store.Healthy)
           Sample.empty_request Sample.table); reflexivity.
Defined.

(** C8 on the code, at a request that reaches the handler without a
    parsed body ([req.body] undefined): it carries neither [userId] nor
    [email], yet the destructuring throws and the answer is 500 with the
    internal-error body, not 400 with the missing-parameter error.  No
    store call is made. *)
Theorem check_subscription_without_body :
  let env := Sample.env 0 (Sample.event "" []) Store.Healthy in
  exists resp w,
    run (check_subscription env None) Sample.table = (Returned resp, w) /\
    code resp = 500 /\
    resp <> missing_parameter /\
    field "error" resp = Some (Js.VStr "Internal server error") /\
    field "message" resp = Some (Js.VStr (Js.message destructure_error)) /\
    trace w = [ConsoleError "Error checking subscription:"] /\
    store_calls w = [] /\
    db w = Sample.table.
Proof.
  intros env. eexists _, _. rewrite check_subscription_no_body.
  split; [reflexivity | split; [reflexivity | split; [discriminate |]]].
  repeat split; reflexivity.
Qed.

(** C7.  When the lookup finds no matching record, the endpoint answers
    200 with [hasSubscription: false] and [subscriptionTier: "free"]: the
    default body, not an error. *)
Theorem check_subscription_no_record env req db0 :
  identified req = true ->
  store_mode env = Store.Healthy ->
  Store.select_eq (query req).1 (query req).2 db0 = [] ->
  exists resp w,
    run (check_subscription env (Some req)) db0 = (Returned resp, w) /\
    code resp = 200 /\
    field "hasSubscription" resp = Some (Js.VBool false) /\
    field "subscriptionTier" resp = Some (Js.VStr "free") /\
    field "error" resp = None /\
    db w = db0.
Proof.
  intros Hid Hm Hsel. eexists _, _.
  rewrite (check_subscription_healthy env req db0 Hid Hm), Hsel.
  repeat split; reflexivity.
Qed.

Lemma check_subscription_no_record_witness :
  exists resp w,
    run (check_subscription
           (Sample.env 0 (Sample.event "" []) Store.Healthy)
           (Some (Sample.by_email "carol@example.com"))) Sample.table
      = (Returned resp, w) /\
    code resp = 200 /\
    field "hasSubscription" resp = Some (Js.VBool false) /\
    field "subscriptionTier" resp = Some (Js.VStr "free") /\
    field "error" resp = None /\
    db w = Sample.table.
Proof.
  apply (check_subscription_no_record
           (Sample.env 0 (Sample.event "" []) Store.Healthy)
           (Sample.by_email "carol@example.com") Sample.table); reflexivity.
Defined.

(** The two flags of [subscription_response], read as propositions. *)
Lemma subscription_response_active env data :
  String.eqb (status data) "active" && negb (current_period_end data <? clock env) = true
  <-> status data = "active" /\ clock env <= current_period_end data.
Proof.
  rewrite andb_true_iff, negb_true_iff, String.eqb_eq, Z.ltb_ge. reflexivity.
Qed.

(** C1, as the code has it.  For a request that matches one stored
    record, [hasSubscription] is true exactly when the record's status is
    ["active"] and its [current_period_end] is not before the time of
    evaluation (a period that ends at that very instant still counts);
    then the tier is the stored one, and otherwise it is ["free"]. *)
Theorem check_subscription_record env req db0 data :
  identified req = true ->
  store_mode env = Store.Healthy ->
  Store.select_eq (query req).1 (query req).2 db0 = [data] ->
  exists resp w,
    run (check_subscription env (Some req)) db0 = (Returned resp, w) /\
    code resp = 200 /\
    (field "hasSubscription" resp = Some (Js.VBool true) <->
       status data = "active" /\ clock env <= current_period_end data) /\
    (status data = "active" /\ clock env <= current_period_end data ->
       field "subscriptionTier" resp = Some (nullable (subscription_tier data))) /\
    (~ (status data = "active" /\ clock env <= current_period_end data) ->
       field "hasSubscription" resp = Some (Js.VBool false) /\
       field "subscriptionTier" resp = Some (Js.VStr "free")).
Proof.
  intros Hid Hm Hsel. eexists _, _.
  rewrite (check_subscription_healthy env req db0 Hid Hm), Hsel.
  split; [reflexivity | split; [reflexivity |]].
  pose proof (subscription_response_active env data) as Hact.
  unfold field, subscription_response, res_json. simpl.
  destruct (String.eqb (status data) "active"
            && negb (current_period_end data <? clock env)).
  - split; [tauto | split; [reflexivity |]].
    intros Hn. exfalso. apply Hn, Hact. reflexivity.
  - split; [| split; [| split; reflexivity]].
    + split; [discriminate |]. intros H. apply Hact in H. discriminate.
    + intros H. apply Hact in H. discriminate.
Qed.

Lemma check_subscription_record_witness :
  exists resp w,
    run (check_subscription
           (Sample.env 1700000000000 (Sample.event "" []) Store.Healthy)
           (Some (Sample.by_email "alice@example.com"))) Sample.table
      = (Returned resp, w) /\
    code resp = 200 /\
    (field "hasSubscription" resp = Some (Js.VBool true) <->
       status Sample.alice = "active" /\
       1700000000000 <= current_period_end Sample.alice) /\
    (status Sample.alice = "active" /\
     1700000000000 <= current_period_end Sample.alice ->
       field "subscriptionTier" resp
         = Some (nullable (subscription_tier Sample.alice))) /\
    (~ (status Sample.alice = "active" /\
        1700000000000 <= current_period_end Sample.alice) ->
       field "hasSubscription" resp = Some (Js.VBool false) /\
       field "subscriptionTier" resp = Some (Js.VStr "free")).
Proof.
  apply (check_subscription_record
           (Sample.env 1700000000000 (Sample.event "" []) Store.Healthy)
           (Sample.by_email "alice@example.com") Sample.table Sample.alice);
    reflexivity.
Defined.

(** C1, as stated, fails at the boundary: an active record whose period
    ends at the very instant of evaluation is reported as subscribed with
    its stored tier, though the end is not strictly in the future. *)
Lemma check_subscription_at_period_end :
  let env := Sample.env 1800000000000 (Sample.event "" []) Store.Healthy in
  let req := Sample.by_email "alice@example.com" in
  exists resp w,
    Store.select_eq (query req).1 (query req).2 Sample.table = [Sample.alice] /\
    run (check_subscription env (Some req)) Sample.table = (Returned resp, w) /\
    field "subscriptionTier" resp = Some (Js.VStr "premium") /\
    ~ (field "hasSubscription" resp = Some (Js.VBool true) <->
         status Sample.alice = "active" /\
         clock env < current_period_end Sample.alice).
Proof.
  eexists _, _. split; [reflexivity | split; [reflexivity | split; [reflexivity |]]].
  intros [Hto _]. specialize (Hto eq_refl). simpl in Hto. lia.
Qed.

(** What the endpoint makes of a store fault, with an identifier in the
    request: when the store call itself throws, the [catch] answers 500
    with the internal error body, which carries no subscription field;
    when the store reports the fault in the [error] field of its result,
    the guard [error || !data] answers as for a missing record. *)
Theorem check_subscription_store_fault env req db0 e :
  identified req = true ->
  (exists w,
     run (check_subscription (with_store_mode (Store.Throws e) env) (Some req)) db0
       = (Returned (internal_server_error e), w) /\
     code (internal_server_error e) = 500 /\
     field "hasSubscription" (internal_server_error e) = None /\
     field "subscriptionTier" (internal_server_error e) = None /\
     db w = db0) /\
  (exists w,
     run (check_subscription (with_store_mode (Store.Rejects e) env) (Some req)) db0
       = (Returned no_subscription, w) /\
     code no_subscription = 200 /\
     db w = db0).
Proof.
  intros Hid. split; eexists.
  - rewrite (check_subscription_throws (with_store_mode (Store.Throws e) env)
               req db0 e Hid eq_refl).
    repeat split; reflexivity.
  - rewrite (check_subscription_rejects (with_store_mode (Store.Rejects e) env)
               req db0 e Hid eq_refl).
    repeat split; reflexivity.
Qed.

Lemma check_subscription_store_fault_witness :
  let env := Sample.env 0 (Sample.event "" []) Store.Healthy in
  let req := Sample.by_email "alice@example.com" in
  let e := Sample.outage in
  (exists w,
     run (check_subscription (with_store_mode (Store.Throws e) env) (Some req)) Sample.table
       = (Returned (internal_server_error e), w) /\
     code (internal_server_error e) = 500 /\
     field "hasSubscription" (internal_server_error e) = None /\
     field "subscriptionTier" (internal_server_error e) = None /\
     db w = Sample.table) /\
  (exists w,
     run (check_subscription (with_store_mode (Store.Rejects e) env) (Some req)) Sample.table
       = (Returned no_subscription, w) /\
     code no_subscription = 200 /\
     db w = Sample.table).
Proof.
  apply (check_subscription_store_fault
           (Sample.env 0 (Sample.event "" []) Store.Healthy)
           (Sample.by_email "alice@example.com") Sample.table Sample.outage).
  reflexivity.
Defined.

(** C2 on the code, at a store fault that the client reports in the
    [error] field of its result, for a customer whose record is stored
    and active: the handler takes the branch for "User not found or no
    subscription" and answers 200 with the default body,
    [hasSubscription: false] and tier ["free"], where the claim and the
    handler's own [catch] answer 500. *)
Theorem check_subscription_fault_reported_as_missing :
  let env := Sample.env 0 (Sample.event "" []) (Store.Rejects Sample.outage) in
  let req := Sample.by_email "alice@example.com" in
  exists resp w,
    Store.select_eq (query req).1 (query req).2 Sample.table = [Sample.alice] /\
    status Sample.alice = "active" /\
    clock env <= current_period_end Sample.alice /\
    run (check_subscription env (Some req)) Sample.table = (Returned resp, w) /\
    resp = no_subscription /\
    code resp = 200 /\
    code resp <> 500 /\
    field "hasSubscription" resp = Some (Js.VBool false) /\
    field "subscriptionTier" resp = Some (Js.VStr "free").
Proof.
  intros env req. eexists _, _.
  split; [reflexivity | split; [reflexivity | split; [simpl; lia |]]].
  split; [reflexivity | split; [reflexivity | split; [reflexivity |]]].
  split; [discriminate | split; reflexivity].
Qed.

(** ** The store operations *)

Section StoreFacts.

Variables (p : Patch) (c : Column) (v : string).

(** An update keeps the rows in place: row by row, a matching row is
    patched and any other row is left as it was. *)
Lemma update_eq_rows (db0 : list Row) :
  Forall2 (fun r r' => r' = if Store.eq c v r then Store.apply_patch p r else r)
    db0 (Store.update_eq p c v db0).
Proof.
  induction db0 as [|r rest IH]; simpl.
  - constructor.
  - constructor; [reflexivity | exact IH].
Qed.

Lemma update_eq_length (db0 : list Row) :
  length (Store.update_eq p c v db0) = length db0.
Proof. unfold Store.update_eq. apply length_map. Qed.

(** The patch does not touch the columns the filters read, so the rows
    that match before are the rows that match after. *)
Lemma apply_patch_column (c' : Column) (r : Row) :
  column c' (Store.apply_patch p r) = column c' r.
Proof. destruct c'; reflexivity. Qed.

Lemma update_eq_select (db0 : list Row) :
  Store.select_eq c v (Store.update_eq p c v db0)
  = List.map (Store.apply_patch p) (Store.select_eq c v db0).
Proof.
  unfold Store.select_eq, Store.update_eq.
  induction db0 as [|r rest IH]; simpl; [reflexivity |].
  destruct (Store.eq c v r) eqn:Hr.
  - unfold Store.eq at 1. rewrite apply_patch_column.
    fold (Store.eq c v r). rewrite Hr. simpl. f_equal. exact IH.
  - rewrite Hr. exact IH.
Qed.

End StoreFacts.

(** An upsert never shrinks the table, and afterwards the table has a row
    for the payload's [user_id]. *)
Lemma upsert_length d db0 :
  (length db0 <= length (Store.upsert d db0) <= S (length db0))%nat.
Proof.
  induction db0 as [|r rest IH]; simpl; [lia |].
  destruct (String.eqb (user_id r) (sd_user_id d)); simpl; lia.
Qed.

Lemma upsert_written d db0 :
  exists old,
    Store.upsert_row d old ∈ Store.upsert d db0 /\
    (forall r, old = Some r -> r ∈ db0 /\ user_id r = sd_user_id d).
Proof.
  induction db0 as [|r rest IH]; simpl.
  - exists None. split; [apply list_elem_of_here | discriminate].
  - destruct (String.eqb (user_id r) (sd_user_id d)) eqn:Hr.
    + exists (Some r). split; [apply list_elem_of_here |].
      intros r' [= <-]. split; [apply list_elem_of_here |].
      apply String.eqb_eq, Hr.
    + destruct IH as (old & Hin & Hold). exists old. split.
      * apply list_elem_of_further, Hin.
      * intros r' Hr'. destruct (Hold r' Hr') as [? ?].
        split; [apply list_elem_of_further |]; assumption.
Qed.

(** ** The webhook endpoint *)

Ltac step_webhook :=
  unfold webhook_stripe, dispatch, handleSubscriptionUpdate,
    handleSubscriptionDeleted, handlePaymentSucceeded, handlePaymentFailed.

Section Webhook.

Variable env : Env.
Variable req : WebhookRequest.
Variable db0 : list Row.

(** An invalid signature: the request ends in the first [catch]. *)
Lemma webhook_rejected err :
  rejected env req err ->
  run (webhook_stripe env req) db0 =
    (Returned (webhook_error err),
     {| db := db0;
        trace := [ConsoleError "Webhook signature verification failed:"] |}).
Proof. intros Hr. step_webhook. rewrite Hr. reflexivity. Qed.

Variable event : Stripe.Event.
Hypothesis Hverified : verified env req event.

(** No handler lets an exception escape, so a verified event is always
    acknowledged; and each collaborator is called at most once. *)
Lemma webhook_verified :
  exists w,
    run (webhook_stripe env req) db0 = (Returned received, w) /\
    (length (store_calls w) <= 1)%nat /\
    (length (customer_lookups w) <= 1)%nat /\
    (ConsoleError "Error processing webhook:" ∉ trace w) /\
    (store_mode env <> Store.Healthy -> db w = db0).
Proof.
  step_webhook. rewrite Hverified. step_m.
  repeat case_match; simplify_eq; eexists;
    (split; [reflexivity |]); simpl; (split; [lia | split; [lia | split]]);
    try congruence;
    repeat (apply not_elem_of_cons; split; [discriminate |]);
    apply not_elem_of_nil.
Qed.

(** [customer.subscription.deleted], the lookup and the store working. *)
Lemma webhook_deleted cust :
  Stripe.type event = "customer.subscription.deleted" ->
  customers_retrieve env (Stripe.customer (Stripe.data_object event)) = inr cust ->
  store_mode env = Store.Healthy ->
  run (webhook_stripe env req) db0 =
    (Returned received,
     {| db := Store.update_eq (cancel_patch (clock env)) Col_stripe_customer_id
                (Stripe.customer (Stripe.data_object event)) db0;
        trace :=
          [ConsoleLog "Webhook received:";
           CustomersRetrieve (Stripe.customer (Stripe.data_object event));
           Update (cancel_patch (clock env)) Col_stripe_customer_id
             (Stripe.customer (Stripe.data_object event));
           ConsoleLog "Subscription canceled in database:"] |}).
Proof.
  intros Ht Hc Hm. step_webhook. rewrite Hverified, Ht. step_m.
  rewrite Hc, Hm. reflexivity.
Qed.

(** [customer.subscription.deleted] when the customer lookup throws:
    the handler's [catch] runs before any store call. *)
Lemma webhook_deleted_lookup_throws e :
  Stripe.type event = "customer.subscription.deleted" ->
  customers_retrieve env (Stripe.customer (Stripe.data_object event)) = inl e ->
  run (webhook_stripe env req) db0 =
    (Returned received,
     {| db := db0;
        trace :=
          [ConsoleLog "Webhook received:";
           CustomersRetrieve (Stripe.customer (Stripe.data_object event));
           ConsoleError "Error handling subscription deletion:"] |}).
Proof.
  intros Ht Hc. step_webhook. rewrite Hverified, Ht. step_m.
  rewrite Hc. reflexivity.
Qed.

(** [invoice.payment_failed] with the store working. *)
Lemma webhook_payment_failed :
  Stripe.type event = "invoice.payment_failed" ->
  store_mode env = Store.Healthy ->
  run (webhook_stripe env req) db0 =
    (Returned received,
     {| db := Store.update_eq (past_due_patch (clock env)) Col_stripe_customer_id
                (Stripe.customer (Stripe.data_object event)) db0;
        trace :=
          [ConsoleLog "Webhook received:";
           Update (past_due_patch (clock env)) Col_stripe_customer_id
             (Stripe.customer (Stripe.data_object event));
           ConsoleLog "Payment failed, subscription marked as past_due"] |}).
Proof.
  intros Ht Hm. step_webhook. rewrite Hverified, Ht. step_m.
  rewrite Hm. reflexivity.
Qed.

(** A subscription created or updated whose customer lookup throws. *)
Lemma webhook_update_lookup_throws e :
  is_subscription_update (Stripe.type event) = true ->
  customers_retrieve env (Stripe.customer (Stripe.data_object event)) = inl e ->
  run (webhook_stripe env req) db0 =
    (Returned received,
     {| db := db0;
        trace :=
          [ConsoleLog "Webhook received:";
           CustomersRetrieve (Stripe.customer (Stripe.data_object event));
           ConsoleError "Error handling subscription update:"] |}).
Proof.
  unfold is_subscription_update. intros Ht Hc.
  step_webhook. rewrite Hverified, Ht. step_m. rewrite Hc. reflexivity.
Qed.

(** A subscription created or updated without a line item:
    [items.data[0]] is undefined, and reading its [price] throws after
    the customer lookup. *)
Lemma webhook_update_no_item :
  is_subscription_update (Stripe.type event) = true ->
  Stripe.items (Stripe.data_object event) = [] ->
  run (webhook_stripe env req) db0 =
    (Returned received,
     {| db := db0;
        trace :=
          [ConsoleLog "Webhook received:";
           CustomersRetrieve (Stripe.customer (Stripe.data_object event));
           ConsoleError "Error handling subscription update:"] |}).
Proof.
  unfold is_subscription_update. intros Ht Hi.
  step_webhook. rewrite Hverified, Ht. step_m. rewrite Hi.
  destruct (customers_retrieve env _); reflexivity.
Qed.

(** A subscription created or updated, everything working: the record
    is upserted with the tier of the first line item's price. *)
Lemma webhook_update cust item rest :
  is_subscription_update (Stripe.type event) = true ->
  customers_retrieve env (Stripe.customer (Stripe.data_object event)) = inr cust ->
  Stripe.items (Stripe.data_object event) = item :: rest ->
  Z.abs (Stripe.current_period_end (Stripe.data_object event) * 1000) <= Js.max_time ->
  store_mode env = Store.Healthy ->
  run (webhook_stripe env req) db0 =
    (Returned received,
     {| db := Store.upsert (subscriptionData env (Stripe.data_object event) cust item) db0;
        trace :=
          [ConsoleLog "Webhook received:";
           CustomersRetrieve (Stripe.customer (Stripe.data_object event));
           Upsert (subscriptionData env (Stripe.data_object event) cust item);
           ConsoleLog "Subscription updated in database:"] |}).
Proof.
  unfold is_subscription_update. intros Ht Hc Hi Hrange Hm.
  step_webhook. rewrite Hverified, Ht. step_m. rewrite Hc, Hi. simpl.
  unfold Js.toISOString. apply Z.leb_le in Hrange. rewrite Hrange. simpl.
  rewrite Hm. reflexivity.
Qed.

End Webhook.

(** C6.  A webhook request whose signature verification fails is answered
    400 with the text [Webhook Error: <message>]; no event branch runs,
    no collaborator is called and the table is not changed. *)
Theorem webhook_invalid_signature env req err db0 :
  rejected env req err ->
  exists w,
    run (webhook_stripe env req) db0 = (Returned (webhook_error err), w) /\
    code (webhook_error err) = 400 /\
    body (webhook_error err) = Text ("Webhook Error: " +:+ Js.message err) /\
    trace w = [ConsoleError "Webhook signature verification failed:"] /\
    store_calls w = [] /\
    customer_lookups w = [] /\
    db w = db0.
Proof.
  intros Hr. eexists. rewrite (webhook_rejected env req db0 err Hr).
  repeat split; reflexivity.
Qed.

Lemma webhook_invalid_signature_witness :
  let env := Sample.env 5 (Sample.event "customer.subscription.deleted" [])
               Store.Healthy in
  exists w,
    run (webhook_stripe env Sample.forged) Sample.table
      = (Returned (webhook_error Sample.bad_signature), w) /\
    code (webhook_error Sample.bad_signature) = 400 /\
    body (webhook_error Sample.bad_signature)
      = Text ("Webhook Error: " +:+ Js.message Sample.bad_signature) /\
    trace w = [ConsoleError "Webhook signature verification failed:"] /\
    store_calls w = [] /\
    customer_lookups w = [] /\
    db w = Sample.table.
Proof.
  apply (webhook_invalid_signature
           (Sample.env 5 (Sample.event "customer.subscription.deleted" [])
              Store.Healthy)
           Sample.forged Sample.bad_signature Sample.table).
  reflexivity.
Defined.

(** C3.  For an event with a valid signature, whatever the customer
    lookup and the store call do inside a handler branch (return, report
    an error, throw), the fault stays inside the branch and the outer
    [catch] does not run: each collaborator is called at most once, a
    store that faults leaves the table as it was, and the response is 200
    [{received: true}], the same as when both calls succeed. *)
Theorem webhook_handler_faults_acknowledged env req event db0 m lookup :
  verified env req event ->
  let faulty := with_store_mode m (with_customers_retrieve lookup env) in
  exists w,
    run (webhook_stripe faulty req) db0 = (Returned received, w) /\
    (run (webhook_stripe faulty req) db0).1 = (run (webhook_stripe env req) db0).1 /\
    code received = 200 /\
    body received = Json [("received", Js.VBool true)] /\
    (length (store_calls w) <= 1)%nat /\
    (length (customer_lookups w) <= 1)%nat /\
    (ConsoleError "Error processing webhook:" ∉ trace w) /\
    (m <> Store.Healthy -> db w = db0).
Proof.
  intros Hv faulty.
  destruct (webhook_verified faulty req db0 event Hv)
    as (w & Hrun & Hs & Hc & Hout & Hdb).
  destruct (webhook_verified env req db0 event Hv) as (w0 & Hrun0 & _).
  exists w. rewrite Hrun, Hrun0.
  repeat split; try reflexivity; assumption.
Qed.

Lemma webhook_handler_faults_acknowledged_witness :
  let env := Sample.env 5 (Sample.event "customer.subscription.deleted" [])
               Store.Healthy in
  let faulty :=
    with_store_mode (Store.Throws Sample.outage)
      (with_customers_retrieve Sample.lookup_down env) in
  exists w,
    run (webhook_stripe faulty Sample.signed) Sample.table = (Returned received, w) /\
    (run (webhook_stripe faulty Sample.signed) Sample.table).1
      = (run (webhook_stripe env Sample.signed) Sample.table).1 /\
    code received = 200 /\
    body received = Json [("received", Js.VBool true)] /\
    (length (store_calls w) <= 1)%nat /\
    (length (customer_lookups w) <= 1)%nat /\
    (ConsoleError "Error processing webhook:" ∉ trace w) /\
    (Store.Throws Sample.outage <> Store.Healthy -> db w = Sample.table).
Proof.
  apply (webhook_handler_faults_acknowledged
           (Sample.env 5 (Sample.event "customer.subscription.deleted" [])
              Store.Healthy)
           Sample.signed
           (Sample.event "customer.subscription.deleted" [])
           Sample.table (Store.Throws Sample.outage) Sample.lookup_down).
  reflexivity.
Defined.

(** C4, as the code has it.  For a [customer.subscription.deleted] event,
    with the store applying the update it is sent: when the provider's
    customer lookup for that customer returns, every stored record of
    that customer ends with status ["canceled"] and tier ["free"], every
    other record is untouched, and no row is removed; when the lookup
    throws, no update is sent and the table stays as it was. *)
Theorem subscription_deleted_cancels env req event db0 :
  verified env req event ->
  Stripe.type event = "customer.subscription.deleted" ->
  store_mode env = Store.Healthy ->
  exists w,
    run (webhook_stripe env req) db0 = (Returned received, w) /\
    match customers_retrieve env (Stripe.customer (Stripe.data_object event)) with
    | inr _ =>
        length (db w) = length db0 /\
        Forall2
          (fun r r' =>
             if String.eqb (stripe_customer_id r)
                  (Stripe.customer (Stripe.data_object event))
             then canceled_of r r'
             else r' = r)
          db0 (db w)
    | inl _ => store_calls w = [] /\ db w = db0
    end.
Proof.
  intros Hv Ht Hm.
  destruct (customers_retrieve env (Stripe.customer (Stripe.data_object event)))
    as [e | cust] eqn:Hc; eexists.
  - rewrite (webhook_deleted_lookup_throws env req db0 event Hv e Ht Hc).
    repeat split; reflexivity.
  - rewrite (webhook_deleted env req db0 event Hv cust Ht Hc Hm). simpl.
    split; [reflexivity | split; [apply update_eq_length |]].
    eapply Forall2_impl; [apply update_eq_rows |].
    intros r r' ->. unfold Store.eq. simpl.
    destruct (String.eqb (stripe_customer_id r) _);
      [repeat split | reflexivity].
Qed.

Lemma subscription_deleted_cancels_witness :
  let ev := Sample.event "customer.subscription.deleted" [] in
  let env := Sample.env 5 ev Store.Healthy in
  exists w,
    run (webhook_stripe env Sample.signed) Sample.table = (Returned received, w) /\
    length (db w) = length Sample.table /\
    Forall2
      (fun r r' =>
         if String.eqb (stripe_customer_id r)
              (Stripe.customer (Stripe.data_object ev))
         then canceled_of r r'
         else r' = r)
      Sample.table (db w).
Proof.
  apply (subscription_deleted_cancels
           (Sample.env 5 (Sample.event "customer.subscription.deleted" [])
              Store.Healthy)
           Sample.signed (Sample.event "customer.subscription.deleted" [])
           Sample.table);
    reflexivity.
Defined.

(** C4, as stated, fails: when the customer lookup throws, the handler
    leaves before the update, and the record of a known customer stays
    active with its paid tier, while the event is acknowledged. *)
Lemma subscription_deleted_lookup_down :
  let ev := Sample.event "customer.subscription.deleted" [] in
  let env :=
    with_customers_retrieve Sample.lookup_down (Sample.env 5 ev Store.Healthy) in
  exists w,
    verified env Sample.signed ev /\
    Store.select_eq Col_stripe_customer_id
      (Stripe.customer (Stripe.data_object ev)) Sample.table = [Sample.alice] /\
    run (webhook_stripe env Sample.signed) Sample.table = (Returned received, w) /\
    db w = Sample.table /\
    Sample.alice ∈ db w /\
    status Sample.alice <> "canceled" /\
    subscription_tier Sample.alice <> Some "free".
Proof.
  eexists.
  split; [reflexivity | split; [reflexivity | split; [reflexivity |]]].
  split; [reflexivity | split; [apply list_elem_of_here |]].
  split; discriminate.
Qed.

(** C5.  For an [invoice.payment_failed] event, with the store applying
    the update, every stored record of that customer gets status
    ["past_due"] and keeps its tier and every other column except
    [updated_at]; every other record is untouched. *)
Theorem payment_failed_marks_past_due env req event db0 :
  verified env req event ->
  Stripe.type event = "invoice.payment_failed" ->
  store_mode env = Store.Healthy ->
  exists w,
    run (webhook_stripe env req) db0 = (Returned received, w) /\
    length (db w) = length db0 /\
    Forall2
      (fun r r' =>
         if String.eqb (stripe_customer_id r)
              (Stripe.customer (Stripe.data_object event))
         then past_due_of r r'
         else r' = r)
      db0 (db w).
Proof.
  intros Hv Ht Hm. eexists.
  rewrite (webhook_payment_failed env req db0 event Hv Ht Hm). simpl.
  split; [reflexivity | split; [apply update_eq_length |]].
  eapply Forall2_impl; [apply update_eq_rows |].
  intros r r' ->. unfold Store.eq. simpl.
  destruct (String.eqb (stripe_customer_id r) _);
    [repeat split | reflexivity].
Qed.

Lemma payment_failed_marks_past_due_witness :
  let ev := Sample.event "invoice.payment_failed" [] in
  let env := Sample.env 5 ev Store.Healthy in
  exists w,
    run (webhook_stripe env Sample.signed) Sample.table = (Returned received, w) /\
    length (db w) = length Sample.table /\
    Forall2
      (fun r r' =>
         if String.eqb (stripe_customer_id r)
              (Stripe.customer (Stripe.data_object ev))
         then past_due_of r r'
         else r' = r)
      Sample.table (db w).
Proof.
  apply (payment_failed_marks_past_due
           (Sample.env 5 (Sample.event "invoice.payment_failed" []) Store.Healthy)
           Sample.signed (Sample.event "invoice.payment_failed" [])
           Sample.table);
    reflexivity.
Defined.

(** C10.  For a subscription created or updated event whose line-item
    list is empty, or whose customer lookup throws, the handler raises
    before the record is built and its own [catch] swallows the
    exception: no store call is made, the table is unchanged, and the
    endpoint still answers 200 [{received: true}]. *)
Theorem subscription_update_raises_before_upsert env req event db0 :
  verified env req event ->
  Stripe.type event = "customer.subscription.created"
  \/ Stripe.type event = "customer.subscription.updated" ->
  Stripe.items (Stripe.data_object event) = []
  \/ (exists e,
        customers_retrieve env (Stripe.customer (Stripe.data_object event)) = inl e) ->
  exists w,
    run (webhook_stripe env req) db0 = (Returned received, w) /\
    code received = 200 /\
    body received = Json [("received", Js.VBool true)] /\
    ConsoleError "Error handling subscription update:" ∈ trace w /\
    (ConsoleError "Error processing webhook:" ∉ trace w) /\
    store_calls w = [] /\
    db w = db0.
Proof.
  intros Hv Ht Hraise.
  assert (is_subscription_update (Stripe.type event) = true) as Hu.
  { unfold is_subscription_update. destruct Ht as [-> | ->]; reflexivity. }
  assert (run (webhook_stripe env req) db0 =
            (Returned received,
             {| db := db0;
                trace :=
                  [ConsoleLog "Webhook received:";
                   CustomersRetrieve (Stripe.customer (Stripe.data_object event));
                   ConsoleError "Error handling subscription update:"] |})) as ->.
  { destruct Hraise as [Hi | [e He]].
    - apply (webhook_update_no_item env req db0 event Hv Hu Hi).
    - apply (webhook_update_lookup_throws env req db0 event Hv e Hu He). }
  eexists. split; [reflexivity |]. simpl.
  split; [reflexivity | split; [reflexivity |]].
  split; [| split; [| split; reflexivity]].
  - do 2 apply list_elem_of_further. apply list_elem_of_here.
  - repeat (apply not_elem_of_cons; split; [discriminate |]).
    apply not_elem_of_nil.
Qed.

Lemma subscription_update_raises_before_upsert_witness :
  let ev := Sample.event "customer.subscription.updated" [] in
  let env := Sample.env 5 ev Store.Healthy in
  exists w,
    run (webhook_stripe env Sample.signed) Sample.table = (Returned received, w) /\
    code received = 200 /\
    body received = Json [("received", Js.VBool true)] /\
    ConsoleError "Error handling subscription update:" ∈ trace w /\
    (ConsoleError "Error processing webhook:" ∉ trace w) /\
    store_calls w = [] /\
    db w = Sample.table.
Proof.
  apply (subscription_update_raises_before_upsert
           (Sample.env 5 (Sample.event "customer.subscription.updated" [])
              Store.Healthy)
           Sample.signed (Sample.event "customer.subscription.updated" [])
           Sample.table).
  - reflexivity.
  - right. reflexivity.
  - left. reflexivity.
Defined.

(** ** Tier resolution *)

(** The mapping holds nothing but the three tier names. *)
Lemma TIER_MAPPING_values cfg priceId v :
  TIER_MAPPING cfg !! priceId = Some v ->
  v = "basic" \/ v = "pro" \/ v = "premium".
Proof.
  unfold TIER_MAPPING. intros H.
  repeat (rewrite lookup_insert in H; case_decide; [simplify_eq; tauto |]).
  rewrite lookup_empty in H. discriminate.
Qed.

(** A mapped price identifier resolves to its tier. *)
Lemma resolve_tier_mapped cfg priceId v :
  TIER_MAPPING cfg !! priceId = Some v ->
  resolve_tier cfg priceId = TierName v.
Proof.
  intros H. unfold resolve_tier, Js.get. rewrite H.
  destruct (TIER_MAPPING_values _ _ _ H) as [-> | [-> | ->]]; reflexivity.
Qed.

(** A price identifier that is neither mapped nor the name of a property
    of [Object.prototype] resolves to ["unknown"]. *)
Lemma resolve_tier_unmapped cfg priceId :
  TIER_MAPPING cfg !! priceId = None ->
  priceId ∉ Js.object_prototype_keys ->
  resolve_tier cfg priceId = TierName "unknown".
Proof.
  intros H Hproto. unfold resolve_tier, Js.get. rewrite H.
  rewrite bool_decide_eq_false_2 by exact Hproto. reflexivity.
Qed.

(** An unmapped price identifier that names a property of
    [Object.prototype] resolves to the inherited object. *)
Lemma resolve_tier_inherited cfg priceId :
  TIER_MAPPING cfg !! priceId = None ->
  priceId ∈ Js.object_prototype_keys ->
  resolve_tier cfg priceId = TierInherited priceId.
Proof.
  intros H Hproto. unfold resolve_tier, Js.get. rewrite H.
  rewrite bool_decide_eq_true_2 by exact Hproto. reflexivity.
Qed.

(** The tier the upsert carries is the resolution of the first line
    item's price identifier. *)
Lemma subscription_update_tier env req event db0 cust item rest :
  verified env req event ->
  is_subscription_update (Stripe.type event) = true ->
  customers_retrieve env (Stripe.customer (Stripe.data_object event)) = inr cust ->
  Stripe.items (Stripe.data_object event) = item :: rest ->
  Z.abs (Stripe.current_period_end (Stripe.data_object event) * 1000) <= Js.max_time ->
  store_mode env = Store.Healthy ->
  exists w d,
    run (webhook_stripe env req) db0 = (Returned received, w) /\
    List.filter is_store_write (trace w) = [Upsert d] /\
    sd_subscription_tier d = resolve_tier (cfg env) (Stripe.price_id item) /\
    db w = Store.upsert d db0.
Proof.
  intros Hv Hu Hc Hi Hrange Hm. eexists _, _.
  rewrite (webhook_update env req db0 event Hv cust item rest Hu Hc Hi Hrange Hm).
  repeat split; reflexivity.
Qed.

(** C9 on the code, at a price identifier that is absent from the mapping
    and names a property of [Object.prototype]: the lookup finds the
    inherited function, which is truthy, so the tier is not ["unknown"];
    the upsert is sent without a tier and the new row has none. *)
Theorem subscription_update_inherited_price_id :
  let ev := Sample.event "customer.subscription.updated"
              [ {| Stripe.price_id := "constructor" |} ] in
  let env := Sample.env 5 ev Store.Healthy in
  TIER_MAPPING (cfg env) !! "constructor" = None /\
  resolve_tier (cfg env) "constructor" = TierInherited "constructor" /\
  exists w d r,
    run (webhook_stripe env Sample.signed) [] = (Returned received, w) /\
    List.filter is_store_write (trace w) = [Upsert d] /\
    sd_subscription_tier d <> TierName "unknown" /\
    tier_json (sd_subscription_tier d) = None /\
    db w = [r] /\
    subscription_tier r <> Some "unknown".
Proof.
  simpl. split; [reflexivity | split; [reflexivity |]].
  eexists _, _, _.
  split; [vm_compute; reflexivity |].
  split; [reflexivity |].
  split; [discriminate | split; [reflexivity |]].
  split; [reflexivity | discriminate].
Qed.

(** * Further properties *)

(** ** More on the store operations *)

Lemma apply_patch_idempotent p r :
  Store.apply_patch p (Store.apply_patch p r) = Store.apply_patch p r.
Proof.
  destruct p as [[st|] [t|] [u|]]; reflexivity.
Qed.

Lemma update_eq_idempotent p c v db0 :
  Store.update_eq p c v (Store.update_eq p c v db0) = Store.update_eq p c v db0.
Proof.
  unfold Store.update_eq. rewrite List.map_map. apply List.map_ext.
  intros r. destruct (Store.eq c v r) eqn:Hr.
  - unfold Store.eq. rewrite apply_patch_column. fold (Store.eq c v r).
    rewrite Hr. apply apply_patch_idempotent.
  - rewrite Hr. reflexivity.
Qed.

(** A filter on any column sees the rows it saw before the update, each
    patched if the update's own filter selected it. *)
Lemma select_eq_update_eq p c v c' v' db0 :
  Store.select_eq c' v' (Store.update_eq p c v db0)
  = List.map (fun r => if Store.eq c v r then Store.apply_patch p r else r)
      (Store.select_eq c' v' db0).
Proof.
  unfold Store.select_eq, Store.update_eq.
  induction db0 as [|r rest IH]; simpl; [reflexivity |].
  assert (Store.eq c' v' (if Store.eq c v r then Store.apply_patch p r else r)
          = Store.eq c' v' r) as ->.
  { destruct (Store.eq c v r); [| reflexivity].
    unfold Store.eq. rewrite apply_patch_column. reflexivity. }
  destruct (Store.eq c' v' r); simpl; [f_equal |]; exact IH.
Qed.

Lemma update_eq_no_match p c v db0 :
  Store.select_eq c v db0 = [] ->
  Store.update_eq p c v db0 = db0.
Proof.
  unfold Store.select_eq, Store.update_eq.
  induction db0 as [|r rest IH]; simpl; [reflexivity |].
  destruct (Store.eq c v r); [discriminate |].
  intros H. f_equal. apply IH, H.
Qed.

Lemma update_eq_user_ids p c v db0 :
  List.map user_id (Store.update_eq p c v db0) = List.map user_id db0.
Proof.
  unfold Store.update_eq. rewrite List.map_map. apply List.map_ext.
  intros r. destruct (Store.eq c v r); reflexivity.
Qed.

Lemma upsert_row_idempotent d old :
  Store.upsert_row d (Some (Store.upsert_row d old)) = Store.upsert_row d old.
Proof.
  unfold Store.upsert_row. simpl.
  destruct (tier_json (sd_subscription_tier d)); reflexivity.
Qed.

Lemma upsert_idempotent d db0 :
  Store.upsert d (Store.upsert d db0) = Store.upsert d db0.
Proof.
  induction db0 as [|r rest IH]; simpl.
  - rewrite String.eqb_refl. rewrite upsert_row_idempotent. reflexivity.
  - destruct (String.eqb (user_id r) (sd_user_id d)) eqn:Hr; simpl.
    + rewrite String.eqb_refl, upsert_row_idempotent. reflexivity.
    + rewrite Hr, IH. reflexivity.
Qed.

(** The identity keys after an upsert: the same when the key was there,
    one more at the end when it was not. *)
Lemma upsert_user_ids d db0 :
  List.map user_id (Store.upsert d db0)
  = if bool_decide (sd_user_id d ∈ List.map user_id db0)
    then List.map user_id db0
    else (List.map user_id db0 ++ [sd_user_id d])%list.
Proof.
  induction db0 as [|r rest IH]; cbn [Store.upsert List.map].
  - rewrite bool_decide_eq_false_2 by apply not_elem_of_nil. reflexivity.
  - destruct (String.eqb (user_id r) (sd_user_id d)) eqn:Hr; cbn [List.map].
    + apply String.eqb_eq in Hr. change (user_id (Store.upsert_row d (Some r)))
        with (sd_user_id d). rewrite <- Hr.
      rewrite bool_decide_eq_true_2 by apply list_elem_of_here. reflexivity.
    + apply String.eqb_neq in Hr. rewrite IH.
      destruct (bool_decide (sd_user_id d ∈ List.map user_id rest)) eqn:Hin.
      * apply bool_decide_eq_true_1 in Hin.
        rewrite bool_decide_eq_true_2 by (apply list_elem_of_further, Hin).
        reflexivity.
      * apply bool_decide_eq_false_1 in Hin.
        rewrite bool_decide_eq_false_2; [reflexivity |].
        intros Hc. apply elem_of_cons in Hc as [Hc | Hc]; congruence.
Qed.

Lemma upsert_unique d db0 :
  unique_user_id db0 -> unique_user_id (Store.upsert d db0).
Proof.
  unfold unique_user_id. intros Hnd. rewrite upsert_user_ids.
  destruct (bool_decide (sd_user_id d ∈ List.map user_id db0)) eqn:Hin;
    [exact Hnd |].
  apply bool_decide_eq_false_1 in Hin.
  apply NoDup_app. split; [exact Hnd | split].
  - intros x Hx Hx'. apply list_elem_of_singleton in Hx'. subst x. contradiction.
  - apply NoDup_singleton.
Qed.

(** On a table with one row per key, the filter on the payload's key
    finds, after the upsert, the one row the upsert wrote. *)
Lemma select_eq_absent uid db0 :
  uid ∉ List.map user_id db0 ->
  Store.select_eq Col_user_id uid db0 = [].
Proof.
  unfold Store.select_eq.
  induction db0 as [|r rest IH]; simpl; [reflexivity |].
  intros Hn. apply not_elem_of_cons in Hn as [Hne Hn].
  unfold Store.eq at 1. simpl.
  destruct (String.eqb (user_id r) uid) eqn:Hr.
  - apply String.eqb_eq in Hr. congruence.
  - apply IH, Hn.
Qed.

Lemma select_eq_upsert d db0 :
  unique_user_id db0 ->
  exists old,
    Store.select_eq Col_user_id (sd_user_id d) (Store.upsert d db0)
    = [Store.upsert_row d old].
Proof.
  unfold unique_user_id.
  induction db0 as [|r rest IH]; simpl; intros Hnd.
  - exists None. unfold Store.select_eq, Store.eq. simpl.
    rewrite String.eqb_refl. reflexivity.
  - apply NoDup_cons in Hnd as [Hr Hnd].
    destruct (String.eqb (user_id r) (sd_user_id d)) eqn:Heq.
    + exists (Some r). apply String.eqb_eq in Heq.
      unfold Store.select_eq. simpl. unfold Store.eq at 1. simpl.
      rewrite String.eqb_refl. f_equal.
      apply select_eq_absent. rewrite <- Heq. exact Hr.
    + destruct (IH Hnd) as [old Hold]. exists old.
      unfold Store.select_eq. simpl. unfold Store.eq at 1. simpl.
      rewrite Heq. exact Hold.
Qed.

(** Where the key is the email, the two filters of the query endpoint
    select the same rows. *)
Lemma select_eq_email_user_id v db0 :
  email_is_user_id db0 ->
  Store.select_eq Col_email v db0 = Store.select_eq Col_user_id v db0.
Proof.
  unfold email_is_user_id, Store.select_eq. intros Hinv.
  induction Hinv as [|r rest Hr _ IH]; simpl; [reflexivity |].
  rewrite IH. unfold Store.eq. simpl. rewrite Hr. reflexivity.
Qed.

Lemma upsert_email_is_user_id d db0 :
  sd_user_id d = sd_email d ->
  email_is_user_id db0 -> email_is_user_id (Store.upsert d db0).
Proof.
  unfold email_is_user_id. intros Hd Hinv.
  induction Hinv as [|r rest Hr Hrest IH]; simpl.
  - constructor; [exact Hd | constructor].
  - destruct (String.eqb (user_id r) (sd_user_id d)).
    + constructor; [exact Hd | exact Hrest].
    + constructor; [exact Hr | exact IH].
Qed.

Lemma update_eq_email_is_user_id p c v db0 :
  email_is_user_id db0 -> email_is_user_id (Store.update_eq p c v db0).
Proof.
  unfold email_is_user_id, Store.update_eq. intros Hinv.
  induction Hinv as [|r rest Hr _ IH]; simpl; constructor; [| exact IH].
  destruct (Store.eq c v r); exact Hr.
Qed.

(** The rows of other users pass through an upsert in their places. *)
Lemma upsert_others d db0 :
  List.filter (fun r => negb (String.eqb (user_id r) (sd_user_id d)))
    (Store.upsert d db0)
  = List.filter (fun r => negb (String.eqb (user_id r) (sd_user_id d))) db0.
Proof.
  induction db0 as [|r rest IH]; simpl.
  - rewrite String.eqb_refl. reflexivity.
  - destruct (String.eqb (user_id r) (sd_user_id d)) eqn:Hr; simpl.
    + rewrite String.eqb_refl. reflexivity.
    + rewrite Hr. simpl. f_equal. exact IH.
Qed.

(** ** More on the webhook endpoint *)

Section WebhookEffects.

Variable env : Env.
Variable req : WebhookRequest.
Variable event : Stripe.Event.
Hypothesis Hverified : verified env req event.

(** A subscription created or updated whose period end is no valid date:
    [toISOString] throws while the record is built. *)
Lemma webhook_update_out_of_range db0 :
  is_subscription_update (Stripe.type event) = true ->
  Js.max_time < Z.abs (Stripe.current_period_end (Stripe.data_object event) * 1000) ->
  run (webhook_stripe env req) db0 =
    (Returned received,
     {| db := db0;
        trace :=
          [ConsoleLog "Webhook received:";
           CustomersRetrieve (Stripe.customer (Stripe.data_object event));
           ConsoleError "Error handling subscription update:"] |}).
Proof.
  unfold is_subscription_update. intros Ht Hrange.
  step_webhook. rewrite Hverified, Ht. step_m.
  unfold Js.toISOString. apply Z.leb_gt in Hrange. rewrite Hrange.
  destruct (customers_retrieve env _); [reflexivity |].
  destruct (Stripe.items _); reflexivity.
Qed.

(** An event of any other type than the four that write. *)
Lemma webhook_no_write db0 :
  is_subscription_update (Stripe.type event) = false ->
  Stripe.type event <> "customer.subscription.deleted" ->
  Stripe.type event <> "invoice.payment_failed" ->
  run (webhook_stripe env req) db0 =
    (Returned received,
     {| db := db0;
        trace :=
          [ConsoleLog "Webhook received:";
           ConsoleLog
             (if String.eqb (Stripe.type event) "invoice.payment_succeeded"
              then "Payment succeeded for customer:"
              else "Unhandled event type:")] |}).
Proof.
  unfold is_subscription_update. intros Ht Hd Hf.
  apply String.eqb_neq in Hd, Hf.
  step_webhook. rewrite Hverified, Ht, Hd, Hf. step_m.
  destruct (String.eqb (Stripe.type event) "invoice.payment_succeeded");
    reflexivity.
Qed.

(** Whatever the store is told does not depend on the table: a verified
    event leaves the table alone, or upserts one record whose key is its
    email, or patches the rows of one customer. *)
Lemma webhook_verified_table_effect :
  (forall db0, table_after (webhook_stripe env req) db0 = db0)
  \/ (exists d,
        is_subscription_update (Stripe.type event) = true /\
        sd_user_id d = sd_email d /\
        forall db0, table_after (webhook_stripe env req) db0 = Store.upsert d db0)
  \/ (exists p v,
        forall db0,
          table_after (webhook_stripe env req) db0
          = Store.update_eq p Col_stripe_customer_id v db0).
Proof.
  destruct (store_mode env) eqn:Hm;
    [| left; intros db0; unfold table_after;
       destruct (webhook_verified env req db0 event Hverified)
         as (w & -> & _ & _ & _ & Hdb); apply Hdb; congruence ..].
  destruct (is_subscription_update (Stripe.type event)) eqn:Hu.
  - destruct (customers_retrieve env (Stripe.customer (Stripe.data_object event)))
      as [e | cust] eqn:Hc.
    { left. intros db0. unfold table_after.
      rewrite (webhook_update_lookup_throws env req db0 event Hverified e Hu Hc).
      reflexivity. }
    destruct (Stripe.items (Stripe.data_object event)) as [|item rest] eqn:Hi.
    { left. intros db0. unfold table_after.
      rewrite (webhook_update_no_item env req db0 event Hverified Hu Hi).
      reflexivity. }
    destruct (Z_le_gt_dec
                (Z.abs (Stripe.current_period_end (Stripe.data_object event) * 1000))
                Js.max_time) as [Hr | Hr].
    + right. left. exists (subscriptionData env (Stripe.data_object event) cust item).
      split; [reflexivity | split; [reflexivity |]].
      intros db0. unfold table_after.
      rewrite (webhook_update env req db0 event Hverified cust item rest Hu Hc Hi Hr Hm).
      reflexivity.
    + left. intros db0. unfold table_after.
      rewrite (webhook_update_out_of_range db0 Hu); [reflexivity | lia].
  - destruct (String.eqb_spec (Stripe.type event) "customer.subscription.deleted")
      as [Hd | Hd].
    { destruct (customers_retrieve env (Stripe.customer (Stripe.data_object event)))
        as [e | cust] eqn:Hc.
      - left. intros db0. unfold table_after.
        rewrite (webhook_deleted_lookup_throws env req db0 event Hverified e Hd Hc).
        reflexivity.
      - right. right. eexists _, _. intros db0. unfold table_after.
        rewrite (webhook_deleted env req db0 event Hverified cust Hd Hc Hm).
        reflexivity. }
    destruct (String.eqb_spec (Stripe.type event) "invoice.payment_failed")
      as [Hf | Hf].
    { right. right. eexists _, _. intros db0. unfold table_after.
      rewrite (webhook_payment_failed env req db0 event Hverified Hf Hm).
      reflexivity. }
    left. intros db0. unfold table_after.
    rewrite (webhook_no_write db0 Hu Hd Hf). reflexivity.
Qed.

End WebhookEffects.

(** The same for any request, verified or not. *)
Lemma webhook_table_effect env req :
  (forall db0, table_after (webhook_stripe env req) db0 = db0)
  \/ (exists d,
        sd_user_id d = sd_email d /\
        forall db0, table_after (webhook_stripe env req) db0 = Store.upsert d db0)
  \/ (exists p v,
        forall db0,
          table_after (webhook_stripe env req) db0
          = Store.update_eq p Col_stripe_customer_id v db0).
Proof.
  destruct (constructEvent env (raw_body req) (stripe_signature req)
              (STRIPE_WEBHOOK_SECRET (cfg env))) as [err | event] eqn:Hev.
  - left. intros db0. unfold table_after.
    rewrite (webhook_rejected env req db0 err Hev). reflexivity.
  - destruct (webhook_verified_table_effect env req event Hev)
      as [H | [(d & _ & Hd & H) | H]].
    + left. exact H.
    + right. left. exists d. split; assumption.
    + right. right. exact H.
Qed.

(** ** More on the query endpoint *)

(** X1.  The query endpoint always answers, and it only reads: whatever
    the request (with or without a parsed body) and the store do, the
    table is left as it was, the provider is not called, no write is
    sent, and at most one store call is made. *)
Theorem check_subscription_read_only env body db0 :
  exists resp w,
    run (check_subscription env body) db0 = (Returned resp, w) /\
    db w = db0 /\
    customer_lookups w = [] /\
    List.filter is_store_write (trace w) = [] /\
    (length (store_calls w) <= 1)%nat.
Proof.
  destruct body as [req |];
    [| eexists _, _; rewrite check_subscription_no_body;
       repeat split; simpl; lia].
  destruct (identified req) eqn:Hid.
  - destruct (store_mode env) as [| e | e] eqn:Hm; eexists _, _.
    + rewrite (check_subscription_healthy env req db0 Hid Hm).
      repeat split; simpl; lia.
    + rewrite (check_subscription_rejects env req db0 e Hid Hm).
      repeat split; simpl; lia.
    + rewrite (check_subscription_throws env req db0 e Hid Hm).
      repeat split; simpl; lia.
  - eexists _, _. rewrite (check_subscription_unidentified env req db0 Hid).
    repeat split; simpl; lia.
Qed.

(** The falsy values of a body: an absent key, null, false, zero and
    the empty string. *)
Lemma truthy_false_iff x :
  Js.truthy x = false <->
  x = Js.JUndefined \/ x = Js.JNull \/ x = Js.JBool false
  \/ x = Js.JNumber "0" \/ x = Js.JString "".
Proof.
  destruct x as [| | [|] | t | t | t]; simpl; split; intros H;
    try discriminate; try tauto;
    try (destruct H as [H | [H | [H | [H | H]]]]; discriminate).
  - apply negb_false_iff, String.eqb_eq in H. subst. tauto.
  - destruct H as [H | [H | [H | [H | H]]]]; try discriminate.
    injection H as ->. reflexivity.
  - apply negb_false_iff, String.eqb_eq in H. subst. tauto.
  - destruct H as [H | [H | [H | [H | H]]]]; try discriminate.
    injection H as ->. reflexivity.
Qed.


(** X3.  A truthy [userId] takes precedence: the lookup filters on
    [user_id] with it, and the request is answered as if [email] had not
    been sent. *)
Theorem check_subscription_userId_first env req db0 :
  Js.truthy (userId req) = true ->
  query req = (Col_user_id, Js.to_string (userId req)) /\
  run (check_subscription env (Some req)) db0
  = run (check_subscription env
           (Some {| userId := userId req; req_email := Js.JUndefined |})) db0.
Proof.
  intros Hu. unfold query. rewrite Hu. split; [reflexivity |].
  unfold check_subscription, query. step_m. rewrite Hu. reflexivity.
Qed.

Lemma check_subscription_userId_first_witness :
  let req := {| userId := Js.JString "dave@example.com";
                req_email := Js.JString "erin@example.com" |} in
  let env := Scenario.env 5 "" Store.Healthy in
  query req = (Col_user_id, "dave@example.com") /\
  run (check_subscription env (Some req)) Scenario.table
  = run (check_subscription env
           (Some {| userId := Js.JString "dave@example.com";
                    req_email := Js.JUndefined |}))
      Scenario.table.
Proof.
  apply (check_subscription_userId_first
           (Scenario.env 5 "" Store.Healthy)
           {| userId := Js.JString "dave@example.com";
              req_email := Js.JString "erin@example.com" |}
           Scenario.table).
  reflexivity.
Defined.

(** X4.  When more than one row matches the filter, [single()] reports an
    error and the endpoint answers with the default body, whatever the
    rows hold. *)
Theorem check_subscription_ambiguous env req db0 :
  identified req = true ->
  store_mode env = Store.Healthy ->
  (2 <= length (Store.select_eq (query req).1 (query req).2 db0))%nat ->
  exists w,
    run (check_subscription env (Some req)) db0 = (Returned no_subscription, w) /\
    db w = db0.
Proof.
  intros Hid Hm Hlen. eexists.
  rewrite (check_subscription_healthy env req db0 Hid Hm).
  destruct (Store.select_eq _ _ db0) as [|r1 [|r2 rest]]; simpl in Hlen;
    [lia | lia |].
  split; reflexivity.
Qed.

Lemma check_subscription_ambiguous_witness :
  let twice := [Sample.alice; Sample.alice] in
  exists w,
    run (check_subscription
           (Sample.env 0 (Sample.event "" []) Store.Healthy)
           (Some (Sample.by_email "alice@example.com"))) twice
      = (Returned no_subscription, w) /\
    db w = twice.
Proof.
  apply (check_subscription_ambiguous
           (Sample.env 0 (Sample.event "" []) Store.Healthy)
           (Sample.by_email "alice@example.com")
           [Sample.alice; Sample.alice]);
    [reflexivity | reflexivity | simpl; lia].
Defined.

(** X5.  On a table where every row's key is its email, asking by
    [userId] and asking by [email] with the same string get the same
    response, whatever the store does. *)
Theorem check_subscription_email_or_userId env s db0 :
  email_is_user_id db0 ->
  response_of
    (check_subscription env
       (Some {| userId := Js.JString s; req_email := Js.JUndefined |})) db0
  = response_of
      (check_subscription env
         (Some {| userId := Js.JUndefined; req_email := Js.JString s |})) db0.
Proof.
  intros Hinv. unfold response_of.
  destruct (String.eqb_spec s "") as [-> | Hne]; [reflexivity |].
  apply String.eqb_neq in Hne.
  assert (identified {| userId := Js.JString s; req_email := Js.JUndefined |} = true)
    as Hu by (unfold identified; simpl; rewrite Hne; reflexivity).
  assert (identified {| userId := Js.JUndefined; req_email := Js.JString s |} = true)
    as He by (unfold identified; simpl; rewrite Hne; reflexivity).
  assert (query {| userId := Js.JString s; req_email := Js.JUndefined |}
          = (Col_user_id, s)) as Hqu
    by (unfold query; simpl; rewrite Hne; reflexivity).
  assert (query {| userId := Js.JUndefined; req_email := Js.JString s |}
          = (Col_email, s)) as Hqe by reflexivity.
  destruct (store_mode env) as [| e | e] eqn:Hm.
  - rewrite (check_subscription_healthy env _ db0 Hu Hm),
      (check_subscription_healthy env _ db0 He Hm), Hqu, Hqe. simpl.
    rewrite (select_eq_email_user_id s db0 Hinv). reflexivity.
  - rewrite (check_subscription_rejects env _ db0 e Hu Hm),
      (check_subscription_rejects env _ db0 e He Hm). reflexivity.
  - rewrite (check_subscription_throws env _ db0 e Hu Hm),
      (check_subscription_throws env _ db0 e He Hm). reflexivity.
Qed.

Lemma check_subscription_email_or_userId_witness :
  let env := Scenario.env 5 "" Store.Healthy in
  response_of (check_subscription env (Some (Scenario.by_userId "dave@example.com")))
    Scenario.table
  = response_of (check_subscription env (Some (Scenario.by_email "dave@example.com")))
      Scenario.table.
Proof.
  apply (check_subscription_email_or_userId
           (Scenario.env 5 "" Store.Healthy) "dave@example.com" Scenario.table).
  repeat constructor.
Defined.

(** X6.  The probe script prints PASS exactly when the store is working
    and holds a single row for the probe's email whose status is
    ["active"], whose period has not ended and whose tier is
    ["premium"]; for every other answer of the endpoint it prints
    FAIL. *)
Theorem testAPI_verdict env db0 :
  exists line,
    TestApi.testAPI env db0 = Some line /\
    (line = "PASS: API returns correct subscription data" \/
     line = "FAIL: Unexpected response") /\
    (line = "PASS: API returns correct subscription data" <->
       store_mode env = Store.Healthy /\
       exists data,
         Store.select_eq Col_email "becreativekashif@gmail.com" db0 = [data] /\
         status data = "active" /\
         clock env <= current_period_end data /\
         subscription_tier data = Some "premium").
Proof.
  unfold TestApi.testAPI, response_of.
  assert (identified TestApi.request = true) as Hid by reflexivity.
  destruct (store_mode env) as [| e | e] eqn:Hm.
  - rewrite (check_subscription_healthy env _ db0 Hid Hm).
    change ((query TestApi.request).1) with Col_email.
    change ((query TestApi.request).2) with "becreativekashif@gmail.com".
    destruct (Store.select_eq Col_email _ db0) as [|data [|r2 rest]] eqn:Hsel;
      simpl.
    + eexists. split; [reflexivity |]. split; [right; reflexivity |].
      split; [discriminate |]. intros [_ (data & Hd & _)]. discriminate.
    + pose proof (subscription_response_active env data) as Hact.
      unfold TestApi.verdict, TestApi.validation, field, subscription_response,
        res_json. simpl.
      destruct (String.eqb (status data) "active"
                && negb (current_period_end data <? clock env)) eqn:Hb; simpl.
      * destruct (subscription_tier data) as [t|] eqn:Ht; simpl.
        -- destruct (String.eqb_spec t "premium") as [-> | Hne].
           ++ eexists. split; [reflexivity |]. split; [left; reflexivity |].
              split; [| reflexivity]. intros _. split; [reflexivity |].
              exists data. destruct Hact as [Hact _]. specialize (Hact eq_refl).
              tauto.
           ++ eexists. split; [reflexivity |]. split; [right; reflexivity |].
              split; [discriminate |].
              intros [_ (data' & [= <-] & _ & _ & Ht')]. congruence.
        -- eexists. split; [reflexivity |]. split; [right; reflexivity |].
           split; [discriminate |].
           intros [_ (data' & [= <-] & _ & _ & Ht')]. congruence.
      * eexists. split; [reflexivity |]. split; [right; reflexivity |].
        split; [discriminate |].
        intros [_ (data' & [= <-] & Hs & Hc & _)].
        destruct Hact as [_ Hact]. specialize (Hact (conj Hs Hc)). congruence.
    + eexists. split; [reflexivity |]. split; [right; reflexivity |].
      split; [discriminate |]. intros [_ (data' & Hd & _)]. discriminate.
  - rewrite (check_subscription_rejects env _ db0 e Hid Hm).
    eexists. split; [reflexivity |]. split; [right; reflexivity |].
    split; [discriminate |]. intros [? _]. discriminate.
  - rewrite (check_subscription_throws env _ db0 e Hid Hm).
    eexists. split; [reflexivity |]. split; [right; reflexivity |].
    split; [discriminate |]. intros [? _]. discriminate.
Qed.

(** ** What the webhook does to the table *)

(** X7.  A verified event of any type other than the four that write
    (so [invoice.payment_succeeded] and every unhandled type) is
    acknowledged with 200 without a call to the store or the provider,
    and the table is left as it was. *)
Theorem webhook_other_events_no_effect env req event db0 :
  verified env req event ->
  Stripe.type event ∉
    [ "customer.subscription.created"; "customer.subscription.updated";
      "customer.subscription.deleted"; "invoice.payment_failed" ] ->
  exists w,
    run (webhook_stripe env req) db0 = (Returned received, w) /\
    store_calls w = [] /\
    customer_lookups w = [] /\
    db w = db0.
Proof.
  intros Hv Ht.
  repeat (apply not_elem_of_cons in Ht as [? Ht]).
  assert (is_subscription_update (Stripe.type event) = false) as Hu.
  { unfold is_subscription_update. apply orb_false_iff.
    split; apply String.eqb_neq; assumption. }
  eexists. rewrite (webhook_no_write env req event Hv db0 Hu) by assumption.
  repeat split; reflexivity.
Qed.

Lemma webhook_other_events_no_effect_witness :
  exists w,
    run (webhook_stripe
           (Scenario.env 5 "invoice.payment_succeeded" Store.Healthy)
           Scenario.request) Scenario.table
      = (Returned received, w) /\
    store_calls w = [] /\
    customer_lookups w = [] /\
    db w = Scenario.table.
Proof.
  apply (webhook_other_events_no_effect
           (Scenario.env 5 "invoice.payment_succeeded" Store.Healthy)
           Scenario.request (Scenario.event "invoice.payment_succeeded")
           Scenario.table).
  - reflexivity.
  - repeat (apply not_elem_of_cons; split; [discriminate |]).
    apply not_elem_of_nil.
Defined.

(** X8.  No webhook request removes or re-keys a row: the identity keys
    of the table afterwards are the keys before, in the same order, with
    at most one new key at the end. *)
Theorem webhook_keeps_rows env req db0 :
  exists added,
    List.map user_id (table_after (webhook_stripe env req) db0)
    = (List.map user_id db0 ++ added)%list /\
    (length added <= 1)%nat.
Proof.
  destruct (webhook_table_effect env req) as [H | [(d & _ & H) | (p & v & H)]];
    rewrite H.
  - exists []. rewrite app_nil_r. split; [reflexivity | simpl; lia].
  - rewrite upsert_user_ids.
    destruct (bool_decide (sd_user_id d ∈ List.map user_id db0)).
    + exists []. rewrite app_nil_r. split; [reflexivity | simpl; lia].
    + exists [sd_user_id d]. split; [reflexivity | simpl; lia].
  - exists []. rewrite app_nil_r, update_eq_user_ids.
    split; [reflexivity | simpl; lia].
Qed.

(** X9.  One row per identity key is an invariant of the webhook: on a
    table without two rows of the same [user_id], no request produces
    one with two. *)
Theorem webhook_keeps_unique_user_id env req db0 :
  unique_user_id db0 ->
  unique_user_id (table_after (webhook_stripe env req) db0).
Proof.
  intros Hu.
  destruct (webhook_table_effect env req) as [H | [(d & _ & H) | (p & v & H)]];
    rewrite H.
  - exact Hu.
  - apply upsert_unique, Hu.
  - unfold unique_user_id. rewrite update_eq_user_ids. exact Hu.
Qed.

Lemma webhook_keeps_unique_user_id_witness :
  unique_user_id
    (table_after
       (webhook_stripe
          (Scenario.env 5 "customer.subscription.created" Store.Healthy)
          Scenario.request)
       Scenario.table).
Proof.
  apply (webhook_keeps_unique_user_id
           (Scenario.env 5 "customer.subscription.created" Store.Healthy)
           Scenario.request Scenario.table).
  unfold unique_user_id. simpl.
  apply NoDup_cons. split.
  - apply not_elem_of_cons. split; [discriminate | apply not_elem_of_nil].
  - apply NoDup_singleton.
Defined.

(** X10.  The key is the email, and stays so: on a table where every
    row has [user_id] equal to [email], every request leaves such a
    table. *)
Theorem webhook_keeps_email_is_user_id env req db0 :
  email_is_user_id db0 ->
  email_is_user_id (table_after (webhook_stripe env req) db0).
Proof.
  intros Hinv.
  destruct (webhook_table_effect env req) as [H | [(d & Hd & H) | (p & v & H)]];
    rewrite H.
  - exact Hinv.
  - apply upsert_email_is_user_id; assumption.
  - apply update_eq_email_is_user_id, Hinv.
Qed.

Lemma webhook_keeps_email_is_user_id_witness :
  email_is_user_id
    (table_after
       (webhook_stripe
          (Scenario.env 5 "customer.subscription.created" Store.Healthy)
          Scenario.request)
       Scenario.table).
Proof.
  apply (webhook_keeps_email_is_user_id
           (Scenario.env 5 "customer.subscription.created" Store.Healthy)
           Scenario.request Scenario.table).
  repeat constructor.
Defined.

(** X11.  Redelivery is harmless: the same request processed a second
    time, by the same environment, leaves the table the first processing
    left. *)
Theorem webhook_redelivery_idempotent env req db0 :
  table_after (webhook_stripe env req)
    (table_after (webhook_stripe env req) db0)
  = table_after (webhook_stripe env req) db0.
Proof.
  destruct (webhook_table_effect env req) as [H | [(d & _ & H) | (p & v & H)]];
    rewrite !H.
  - reflexivity.
  - apply upsert_idempotent.
  - apply update_eq_idempotent.
Qed.

(** X12.  A subscription created or updated whose period end is outside
    the range of dates: building the record throws, the handler's catch
    swallows it, no store call is made and the event is acknowledged. *)
Theorem subscription_update_invalid_period_end env req event db0 :
  verified env req event ->
  Stripe.type event = "customer.subscription.created"
  \/ Stripe.type event = "customer.subscription.updated" ->
  Js.max_time < Z.abs (Stripe.current_period_end (Stripe.data_object event) * 1000) ->
  exists w,
    run (webhook_stripe env req) db0 = (Returned received, w) /\
    ConsoleError "Error handling subscription update:" ∈ trace w /\
    store_calls w = [] /\
    db w = db0.
Proof.
  intros Hv Ht Hrange.
  assert (is_subscription_update (Stripe.type event) = true) as Hu.
  { unfold is_subscription_update. destruct Ht as [-> | ->]; reflexivity. }
  eexists. rewrite (webhook_update_out_of_range env req event Hv db0 Hu Hrange).
  split; [reflexivity | split; [| split; reflexivity]].
  simpl. do 2 apply list_elem_of_further. apply list_elem_of_here.
Qed.

Lemma subscription_update_invalid_period_end_witness :
  let ev :=
    {| Stripe.type := "customer.subscription.updated";
       Stripe.data_object :=
         {| Stripe.id := "sub_9";
            Stripe.customer := "cus_carol";
            Stripe.status := "active";
            Stripe.items := [Scenario.premium_item];
            Stripe.current_period_end := 8640000000001 |} |} in
  let env :=
    {| cfg := Scenario.config;
       clock := 5;
       constructEvent := Scenario.accept ev;
       customers_retrieve := Scenario.lookup_carol;
       store_mode := Store.Healthy |} in
  exists w,
    run (webhook_stripe env Scenario.request) Scenario.table
      = (Returned received, w) /\
    ConsoleError "Error handling subscription update:" ∈ trace w /\
    store_calls w = [] /\
    db w = Scenario.table.
Proof.
  intros ev env.
  apply (subscription_update_invalid_period_end env Scenario.request ev
           Scenario.table).
  - reflexivity.
  - right. reflexivity.
  - vm_compute. reflexivity.
Defined.

(** X13.  A [customer.subscription.deleted] or [invoice.payment_failed]
    event for a customer without a stored record changes nothing: the
    update matches no row and none is created. *)
Theorem webhook_unknown_customer env req event db0 :
  verified env req event ->
  Stripe.type event = "customer.subscription.deleted"
  \/ Stripe.type event = "invoice.payment_failed" ->
  Store.select_eq Col_stripe_customer_id
    (Stripe.customer (Stripe.data_object event)) db0 = [] ->
  response_of (webhook_stripe env req) db0 = Returned received /\
  table_after (webhook_stripe env req) db0 = db0.
Proof.
  intros Hv Ht Hsel. unfold response_of, table_after.
  destruct (store_mode env) eqn:Hm;
    [| destruct (webhook_verified env req db0 event Hv)
         as (w & -> & _ & _ & _ & Hdb); split; [reflexivity |];
       apply Hdb; congruence ..].
  destruct Ht as [Ht | Ht].
  - destruct (customers_retrieve env (Stripe.customer (Stripe.data_object event)))
      as [e | cust] eqn:Hc.
    + rewrite (webhook_deleted_lookup_throws env req db0 event Hv e Ht Hc).
      split; reflexivity.
    + rewrite (webhook_deleted env req db0 event Hv cust Ht Hc Hm).
      split; [reflexivity |]. simpl. apply update_eq_no_match, Hsel.
  - rewrite (webhook_payment_failed env req db0 event Hv Ht Hm).
    split; [reflexivity |]. simpl. apply update_eq_no_match, Hsel.
Qed.

Lemma webhook_unknown_customer_witness :
  let env := Scenario.env 5 "invoice.payment_failed" Store.Healthy in
  response_of (webhook_stripe env Scenario.request) Sample.table
    = Returned received /\
  table_after (webhook_stripe env Scenario.request) Sample.table = Sample.table.
Proof.
  apply (webhook_unknown_customer
           (Scenario.env 5 "invoice.payment_failed" Store.Healthy)
           Scenario.request (Scenario.event "invoice.payment_failed")
           Sample.table).
  - reflexivity.
  - right. reflexivity.
  - reflexivity.
Defined.

(** ** Tier resolution, continued *)

Lemma resolve_tier_default cfg priceId :
  priceId ∉ Js.object_prototype_keys ->
  resolve_tier cfg priceId
  = TierName (default "unknown" (TIER_MAPPING cfg !! priceId)).
Proof.
  intros Hproto. destruct (TIER_MAPPING cfg !! priceId) as [v|] eqn:Hv; simpl.
  - apply resolve_tier_mapped, Hv.
  - apply resolve_tier_unmapped; assumption.
Qed.

(** X14.  With the three price identifiers configured, the premium
    identifier resolves to ["premium"], the pro identifier to ["pro"]
    unless it is also the premium one, and the basic identifier to
    ["basic"] unless it is also one of the other two: among equal
    identifiers the later entry of the mapping wins. *)
Theorem resolve_tier_configured cfg basic pro premium :
  PRICE_ID_BASIC cfg = Some basic ->
  PRICE_ID_PRO cfg = Some pro ->
  PRICE_ID_PREMIUM cfg = Some premium ->
  resolve_tier cfg premium = TierName "premium" /\
  (pro <> premium -> resolve_tier cfg pro = TierName "pro") /\
  (basic <> pro -> basic <> premium -> resolve_tier cfg basic = TierName "basic").
Proof.
  intros Hb Hp Hq.
  assert (forall k v, TIER_MAPPING cfg !! k = Some v -> resolve_tier cfg k = TierName v)
    as Hres by (intros; apply resolve_tier_mapped; assumption).
  split; [| split; intros].
  - apply Hres. unfold TIER_MAPPING. rewrite Hq. simpl. apply lookup_insert_eq.
  - apply Hres. unfold TIER_MAPPING. rewrite Hq, Hp. simpl.
    rewrite lookup_insert_ne by congruence. apply lookup_insert_eq.
  - apply Hres. unfold TIER_MAPPING. rewrite Hq, Hp, Hb. simpl.
    rewrite !lookup_insert_ne by congruence. apply lookup_insert_eq.
Qed.

Lemma resolve_tier_configured_witness :
  resolve_tier Scenario.config "price_premium" = TierName "premium" /\
  ("price_pro" <> "price_premium" ->
   resolve_tier Scenario.config "price_pro" = TierName "pro") /\
  ("price_basic" <> "price_pro" -> "price_basic" <> "price_premium" ->
   resolve_tier Scenario.config "price_basic" = TierName "basic").
Proof.
  apply (resolve_tier_configured Scenario.config
           "price_basic" "price_pro" "price_premium"); reflexivity.
Defined.

(** ** A subscription created or updated, everything working *)

Section SubscriptionUpdate.

Variable env : Env.
Variable req : WebhookRequest.
Variable event : Stripe.Event.
Variable db0 : list Row.
Variable cust : Stripe.Customer.
Variable item : Stripe.LineItem.
Variable rest : list Stripe.LineItem.

Hypothesis Hverified : verified env req event.
Hypothesis Htype :
  Stripe.type event = "customer.subscription.created"
  \/ Stripe.type event = "customer.subscription.updated".
Hypothesis Hlookup :
  customers_retrieve env (Stripe.customer (Stripe.data_object event)) = inr cust.
Hypothesis Hitems : Stripe.items (Stripe.data_object event) = item :: rest.
Hypothesis Hrange :
  Z.abs (Stripe.current_period_end (Stripe.data_object event) * 1000) <= Js.max_time.
Hypothesis Hhealthy : store_mode env = Store.Healthy.

Lemma subscription_update_table :
  table_after (webhook_stripe env req) db0
  = Store.upsert (subscriptionData env (Stripe.data_object event) cust item) db0.
Proof.
  assert (is_subscription_update (Stripe.type event) = true) as Hu.
  { unfold is_subscription_update. destruct Htype as [-> | ->]; reflexivity. }
  unfold table_after.
  rewrite (webhook_update env req db0 event Hverified cust item rest
             Hu Hlookup Hitems Hrange Hhealthy).
  reflexivity.
Qed.

(** X15.  After the event the table holds the record of the event: keyed
    by the customer's email in both [user_id] and [email], with the
    subscription's customer, identifier and status, the period end in
    milliseconds and the time of the write; and unless the price
    identifier names a property of [Object.prototype], with the mapped
    tier, or ["unknown"] when the identifier is not mapped. *)
Theorem subscription_update_written :
  exists r,
    r ∈ table_after (webhook_stripe env req) db0 /\
    user_id r = Stripe.email cust /\
    email r = Stripe.email cust /\
    stripe_customer_id r = Stripe.customer (Stripe.data_object event) /\
    stripe_subscription_id r = Stripe.id (Stripe.data_object event) /\
    status r = Stripe.status (Stripe.data_object event) /\
    current_period_end r
      = Stripe.current_period_end (Stripe.data_object event) * 1000 /\
    updated_at r = clock env /\
    (Stripe.price_id item ∉ Js.object_prototype_keys ->
     subscription_tier r
     = Some (default "unknown" (TIER_MAPPING (cfg env) !! Stripe.price_id item))).
Proof.
  rewrite subscription_update_table.
  destruct (upsert_written
              (subscriptionData env (Stripe.data_object event) cust item) db0)
    as (old & Hin & _).
  eexists. split; [exact Hin |].
  repeat (split; [reflexivity |]).
  intros Hproto. simpl. rewrite (resolve_tier_default _ _ Hproto). reflexivity.
Qed.

(** X16.  The event overwrites the row whose key is the customer's email
    when there is one and adds a row when there is none; the rows of
    every other key are left as they were, in their places. *)
Theorem subscription_update_frame :
  List.filter (fun r => negb (String.eqb (user_id r) (Stripe.email cust)))
    (table_after (webhook_stripe env req) db0)
  = List.filter (fun r => negb (String.eqb (user_id r) (Stripe.email cust))) db0
  /\
  length (table_after (webhook_stripe env req) db0)
  = if bool_decide (Stripe.email cust ∈ List.map user_id db0)
    then length db0
    else S (length db0).
Proof.
  rewrite subscription_update_table. split.
  - apply (upsert_others
             (subscriptionData env (Stripe.data_object event) cust item) db0).
  - rewrite <- (length_map user_id), upsert_user_ids. simpl.
    destruct (bool_decide (Stripe.email cust ∈ List.map user_id db0)).
    + apply length_map.
    + rewrite length_app, length_map. simpl. lia.
Qed.

(** X17.  The round trip through the store: on a table with one row per
    key, a later query by the customer's email as [userId] returns the
    record of the event; it reports a subscription exactly when the
    status is ["active"] and the period has not ended at the time of the
    query, then with the tier mapped to the price, and with ["free"]
    once the period has ended, whatever tier is stored. *)
Theorem subscription_update_then_check (now : Env) :
  unique_user_id db0 ->
  Stripe.email cust <> "" ->
  store_mode now = Store.Healthy ->
  exists resp,
    response_of
      (check_subscription now
         (Some {| userId := Js.JString (Stripe.email cust); req_email := Js.JUndefined |}))
      (table_after (webhook_stripe env req) db0)
    = Returned resp /\
    code resp = 200 /\
    field "status" resp = Some (Js.VStr (Stripe.status (Stripe.data_object event))) /\
    field "currentPeriodEnd" resp
    = Some (Js.VTimestamp
              (Stripe.current_period_end (Stripe.data_object event) * 1000)) /\
    (field "hasSubscription" resp = Some (Js.VBool true) <->
       Stripe.status (Stripe.data_object event) = "active" /\
       clock now <= Stripe.current_period_end (Stripe.data_object event) * 1000) /\
    (forall v,
       TIER_MAPPING (cfg env) !! Stripe.price_id item = Some v ->
       Stripe.status (Stripe.data_object event) = "active" ->
       clock now <= Stripe.current_period_end (Stripe.data_object event) * 1000 ->
       field "subscriptionTier" resp = Some (Js.VStr v)) /\
    (Stripe.current_period_end (Stripe.data_object event) * 1000 < clock now ->
     field "hasSubscription" resp = Some (Js.VBool false) /\
     field "subscriptionTier" resp = Some (Js.VStr "free")).
Proof.
  intros Huniq Hne Hm. rewrite subscription_update_table.
  set (d := subscriptionData env (Stripe.data_object event) cust item).
  destruct (select_eq_upsert d db0 Huniq) as [old Hsel].
  assert (identified {| userId := Js.JString (Stripe.email cust); req_email := Js.JUndefined |}
          = true) as Hid.
  { unfold identified. simpl. apply String.eqb_neq in Hne. rewrite Hne. reflexivity. }
  assert (query {| userId := Js.JString (Stripe.email cust); req_email := Js.JUndefined |}
          = (Col_user_id, Stripe.email cust)) as Hq.
  { unfold query. simpl. apply String.eqb_neq in Hne. rewrite Hne. reflexivity. }
  change (sd_user_id d) with (Stripe.email cust) in Hsel.
  unfold response_of.
  rewrite (check_subscription_healthy now _ _ Hid Hm), Hq. cbn [fst snd].
  rewrite Hsel. eexists. split; [reflexivity |].
  pose proof (subscription_response_active now (Store.upsert_row d old)) as Hact.
  simpl in Hact.
  unfold field, subscription_response, res_json. simpl.
  split; [reflexivity | split; [reflexivity | split; [reflexivity |]]].
  destruct (String.eqb (Stripe.status (Stripe.data_object event)) "active"
            && negb (Stripe.current_period_end (Stripe.data_object event) * 1000
                     <? clock now)) eqn:Hb.
  - destruct Hact as [Hact _]. specialize (Hact eq_refl).
    split; [tauto | split].
    + intros v Hv _ _. rewrite (resolve_tier_mapped _ _ _ Hv). reflexivity.
    + intros Hlt. lia.
  - split; [| split].
    + split; [discriminate |]. intros H. apply Hact in H. discriminate.
    + intros v _ Hs Hc. destruct Hact as [_ Hact].
      specialize (Hact (conj Hs Hc)). discriminate.
    + intros _. split; reflexivity.
Qed.

End SubscriptionUpdate.

Lemma subscription_update_written_witness :
  let env := Scenario.env 5 "customer.subscription.created" Store.Healthy in
  let ev := Scenario.event "customer.subscription.created" in
  exists r,
    r ∈ table_after (webhook_stripe env Scenario.request) Scenario.table /\
    user_id r = Stripe.email Scenario.carol /\
    email r = Stripe.email Scenario.carol /\
    stripe_customer_id r = Stripe.customer (Stripe.data_object ev) /\
    stripe_subscription_id r = Stripe.id (Stripe.data_object ev) /\
    status r = Stripe.status (Stripe.data_object ev) /\
    current_period_end r
      = Stripe.current_period_end (Stripe.data_object ev) * 1000 /\
    updated_at r = clock env /\
    (Stripe.price_id Scenario.premium_item ∉ Js.object_prototype_keys ->
     subscription_tier r
     = Some (default "unknown"
               (TIER_MAPPING (cfg env) !! Stripe.price_id Scenario.premium_item))).
Proof.
  apply (subscription_update_written
           (Scenario.env 5 "customer.subscription.created" Store.Healthy)
           Scenario.request (Scenario.event "customer.subscription.created")
           Scenario.table Scenario.carol Scenario.premium_item []).
  - reflexivity.
  - left. reflexivity.
  - reflexivity.
  - reflexivity.
  - vm_compute. discriminate.
  - reflexivity.
Defined.

Lemma subscription_update_frame_witness :
  let env := Scenario.env 5 "customer.subscription.created" Store.Healthy in
  List.filter
    (fun r => negb (String.eqb (user_id r) (Stripe.email Scenario.carol)))
    (table_after (webhook_stripe env Scenario.request) Scenario.table)
  = List.filter
      (fun r => negb (String.eqb (user_id r) (Stripe.email Scenario.carol)))
      Scenario.table
  /\
  length (table_after (webhook_stripe env Scenario.request) Scenario.table)
  = if bool_decide (Stripe.email Scenario.carol ∈ List.map user_id Scenario.table)
    then length Scenario.table
    else S (length Scenario.table).
Proof.
  apply (subscription_update_frame
           (Scenario.env 5 "customer.subscription.created" Store.Healthy)
           Scenario.request (Scenario.event "customer.subscription.created")
           Scenario.table Scenario.carol Scenario.premium_item []).
  - reflexivity.
  - left. reflexivity.
  - reflexivity.
  - reflexivity.
  - vm_compute. discriminate.
  - reflexivity.
Defined.

Lemma subscription_update_then_check_witness :
  let env := Scenario.env 5 "customer.subscription.created" Store.Healthy in
  let ev := Scenario.event "customer.subscription.created" in
  let now := Scenario.env 1900000000000 "" Store.Healthy in
  exists resp,
    response_of
      (check_subscription now
         (Some {| userId := Js.JString (Stripe.email Scenario.carol); req_email := Js.JUndefined |}))
      (table_after (webhook_stripe env Scenario.request) Scenario.table)
    = Returned resp /\
    code resp = 200 /\
    field "status" resp = Some (Js.VStr (Stripe.status (Stripe.data_object ev))) /\
    field "currentPeriodEnd" resp
    = Some (Js.VTimestamp
              (Stripe.current_period_end (Stripe.data_object ev) * 1000)) /\
    (field "hasSubscription" resp = Some (Js.VBool true) <->
       Stripe.status (Stripe.data_object ev) = "active" /\
       clock now <= Stripe.current_period_end (Stripe.data_object ev) * 1000) /\
    (forall v,
       TIER_MAPPING (cfg env) !! Stripe.price_id Scenario.premium_item = Some v ->
       Stripe.status (Stripe.data_object ev) = "active" ->
       clock now <= Stripe.current_period_end (Stripe.data_object ev) * 1000 ->
       field "subscriptionTier" resp = Some (Js.VStr v)) /\
    (Stripe.current_period_end (Stripe.data_object ev) * 1000 < clock now ->
     field "hasSubscription" resp = Some (Js.VBool false) /\
     field "subscriptionTier" resp = Some (Js.VStr "free")).
Proof.
  apply (subscription_update_then_check
           (Scenario.env 5 "customer.subscription.created" Store.Healthy)
           Scenario.request (Scenario.event "customer.subscription.created")
           Scenario.table Scenario.carol Scenario.premium_item []).
  - reflexivity.
  - left. reflexivity.
  - reflexivity.
  - reflexivity.
  - vm_compute. discriminate.
  - reflexivity.
  - unfold unique_user_id. simpl.
    apply NoDup_cons. split.
    + apply not_elem_of_cons. split; [discriminate | apply not_elem_of_nil].
    + apply NoDup_singleton.
  - discriminate.
  - reflexivity.
Defined.

(** ** A write followed by a query *)

Section PatchThenCheck.

Variable env : Env.
Variable req : WebhookRequest.
Variable event : Stripe.Event.
Variable db0 : list Row.

Hypothesis Hverified : verified env req event.
Hypothesis Hhealthy : store_mode env = Store.Healthy.

(** The query that follows, in its own environment, and the one row it
    selected before the event: a row of the event's customer. *)
Variable now : Env.
Variable q : CheckRequest.
Variable r : Row.

Hypothesis Hidentified : identified q = true.
Hypothesis Hnow : store_mode now = Store.Healthy.
Hypothesis Hselected : Store.select_eq (query q).1 (query q).2 db0 = [r].
Hypothesis Hcustomer :
  stripe_customer_id r = Stripe.customer (Stripe.data_object event).

Lemma check_after_update_eq p :
  response_of (check_subscription now (Some q))
    (Store.update_eq p Col_stripe_customer_id
       (Stripe.customer (Stripe.data_object event)) db0)
  = Returned (subscription_response now (Store.apply_patch p r)).
Proof.
  unfold response_of.
  rewrite (check_subscription_healthy now q _ Hidentified Hnow).
  rewrite select_eq_update_eq, Hselected. simpl.
  unfold Store.eq at 1. simpl. rewrite Hcustomer, String.eqb_refl. reflexivity.
Qed.

(** X18.  After a [customer.subscription.deleted] event whose customer
    lookup returned, a query that selected a row of that customer is
    answered with no subscription: status ["canceled"], tier ["free"],
    however long the paid period still runs. *)
Theorem subscription_deleted_then_check cust :
  Stripe.type event = "customer.subscription.deleted" ->
  customers_retrieve env (Stripe.customer (Stripe.data_object event)) = inr cust ->
  exists resp,
    response_of (check_subscription now (Some q))
      (table_after (webhook_stripe env req) db0) = Returned resp /\
    code resp = 200 /\
    field "hasSubscription" resp = Some (Js.VBool false) /\
    field "subscriptionTier" resp = Some (Js.VStr "free") /\
    field "status" resp = Some (Js.VStr "canceled") /\
    field "currentPeriodEnd" resp = Some (Js.VTimestamp (current_period_end r)).
Proof.
  intros Ht Hc. unfold table_after.
  rewrite (webhook_deleted env req db0 event Hverified cust Ht Hc Hhealthy).
  simpl. rewrite check_after_update_eq. eexists. split; [reflexivity |].
  repeat split; reflexivity.
Qed.

(** X19.  After an [invoice.payment_failed] event, a query that selected
    a row of that customer is answered with no subscription: status
    ["past_due"] and tier ["free"], while the row in the table keeps the
    tier it had. *)
Theorem payment_failed_then_check :
  Stripe.type event = "invoice.payment_failed" ->
  exists resp r',
    response_of (check_subscription now (Some q))
      (table_after (webhook_stripe env req) db0) = Returned resp /\
    code resp = 200 /\
    field "hasSubscription" resp = Some (Js.VBool false) /\
    field "subscriptionTier" resp = Some (Js.VStr "free") /\
    field "status" resp = Some (Js.VStr "past_due") /\
    Store.select_eq (query q).1 (query q).2
      (table_after (webhook_stripe env req) db0) = [r'] /\
    subscription_tier r' = subscription_tier r.
Proof.
  intros Ht. unfold table_after.
  rewrite (webhook_payment_failed env req db0 event Hverified Ht Hhealthy).
  simpl. rewrite check_after_update_eq. eexists _, _. split; [reflexivity |].
  split; [reflexivity | split; [reflexivity | split; [reflexivity |]]].
  split; [reflexivity |].
  rewrite select_eq_update_eq, Hselected. simpl.
  unfold Store.eq at 1. simpl. rewrite Hcustomer, String.eqb_refl.
  split; reflexivity.
Qed.

End PatchThenCheck.

Lemma subscription_deleted_then_check_witness :
  let env := Scenario.env 5 "customer.subscription.deleted" Store.Healthy in
  let now := Scenario.env 6 "" Store.Healthy in
  let r := Scenario.row "erin@example.com" "cus_carol" "premium" "active"
             1800000000000 in
  exists resp,
    response_of (check_subscription now (Some (Scenario.by_email "erin@example.com")))
      (table_after (webhook_stripe env Scenario.request) Scenario.table)
    = Returned resp /\
    code resp = 200 /\
    field "hasSubscription" resp = Some (Js.VBool false) /\
    field "subscriptionTier" resp = Some (Js.VStr "free") /\
    field "status" resp = Some (Js.VStr "canceled") /\
    field "currentPeriodEnd" resp = Some (Js.VTimestamp (current_period_end r)).
Proof.
  apply (subscription_deleted_then_check
           (Scenario.env 5 "customer.subscription.deleted" Store.Healthy)
           Scenario.request (Scenario.event "customer.subscription.deleted")
           Scenario.table eq_refl eq_refl
           (Scenario.env 6 "" Store.Healthy)
           (Scenario.by_email "erin@example.com")
           (Scenario.row "erin@example.com" "cus_carol" "premium" "active"
              1800000000000)
           eq_refl eq_refl eq_refl eq_refl Scenario.carol eq_refl eq_refl).
Defined.

Lemma payment_failed_then_check_witness :
  let env := Scenario.env 5 "invoice.payment_failed" Store.Healthy in
  let now := Scenario.env 6 "" Store.Healthy in
  let q := Scenario.by_email "erin@example.com" in
  let r := Scenario.row "erin@example.com" "cus_carol" "premium" "active"
             1800000000000 in
  exists resp r',
    response_of (check_subscription now (Some q))
      (table_after (webhook_stripe env Scenario.request) Scenario.table)
    = Returned resp /\
    code resp = 200 /\
    field "hasSubscription" resp = Some (Js.VBool false) /\
    field "subscriptionTier" resp = Some (Js.VStr "free") /\
    field "status" resp = Some (Js.VStr "past_due") /\
    Store.select_eq (query q).1 (query q).2
      (table_after (webhook_stripe env Scenario.request) Scenario.table) = [r'] /\
    subscription_tier r' = subscription_tier r.
Proof.
  apply (payment_failed_then_check
           (Scenario.env 5 "invoice.payment_failed" Store.Healthy)
           Scenario.request (Scenario.event "invoice.payment_failed")
           Scenario.table eq_refl eq_refl
           (Scenario.env 6 "" Store.Healthy)
           (Scenario.by_email "erin@example.com")
           (Scenario.row "erin@example.com" "cus_carol" "premium" "active"
              1800000000000)
           eq_refl eq_refl eq_refl eq_refl eq_refl).
Defined.
